(** * Flow-AI: the workflow wizard and the workflow store

    A shallow embedding of the TypeScript sources
    - [types.ts]                         (the data model),
    - [services/geminiService.ts]        (the calls to the completion service),
    - [components/WorkflowWizard.tsx]    (the three-step wizard),
    - [components/FluAIAssistant.tsx]    (the assistant),
    - [App.tsx]                          (the workflow store and the views),
    followed by the properties of the plan-elicitation session, the wizard
    state machine and the store.

    Conventions of the embedding.
    - A JavaScript string is a [string]: a sequence of code units, of which
      the embedding keeps those below 256.
    - [T | null] and an optional field [f?: T] are [option T].
    - React state is a record; a handler is a function from the state at the
      click to the state after the handler has run to completion, together
      with the calls it made ([onUpdate], the completion service) and the
      error it left unhandled, if any.  One handler runs at a time.
    - What the completion service answers is an input of the handler.
    - The declared types hold of what the user types and of what the code
      builds, not of what the completion service answers: the submission
      handler is given twice, on answers of the declared types and, with the
      suffix [_untyped], on whatever [JSON.parse] returns.  The two agree
      on answers of the declared types. *)

From Stdlib Require Import Ascii ZArith SpecFloat.
From stdpp Require Import base list strings.

(** ** JavaScript strings *)

Module JS.

(** The code units below 256 that [String.prototype.trim] strips: TAB, LF,
    VT, FF, CR, SPACE and NBSP. *)
Definition isWhiteSpace (c : ascii) : bool :=
  match c with
  | "009" | "010" | "011" | "012" | "013" | " " | "160" => true
  | _ => false
  end%char.

Fixpoint trimStart (s : string) : string :=
  match s with
  | EmptyString => EmptyString
  | String c s' => if isWhiteSpace c then trimStart s' else s
  end.

Fixpoint trimEnd (s : string) : string :=
  match s with
  | EmptyString => EmptyString
  | String c s' =>
      match trimEnd s' with
      | EmptyString => if isWhiteSpace c then EmptyString else String c EmptyString
      | t => String c t
      end
  end.

(** [s.trim()] *)
Definition trim (s : string) : string := trimEnd (trimStart s).

(** Every code unit of [s] is white space ([s] may be empty). *)
Fixpoint whitespaceOnly (s : string) : bool :=
  match s with
  | EmptyString => true
  | String c s' => isWhiteSpace c && whitespaceOnly s'
  end.

(** Truthiness of a string: only the empty string is falsy. *)
Definition truthy (s : string) : bool :=
  match s with
  | EmptyString => false
  | String _ _ => true
  end.

(** Truthiness of [string | null | undefined]. *)
Definition truthyOpt (o : option string) : bool :=
  match o with
  | Some s => truthy s
  | None => false
  end.

(** [o || d] for [o : string | undefined]. *)
Definition orElse (o : option string) (d : string) : string :=
  match o with
  | Some s => if truthy s then s else d
  | None => d
  end.

(** [l.join(sep)] *)
Fixpoint join (sep : string) (l : list string) : string :=
  match l with
  | [] => ""
  | [x] => x
  | x :: l' => x +:+ sep +:+ join sep l'
  end.

(** [pat] is a prefix of [s]. *)
Fixpoint startsWith (pat s : string) : bool :=
  match pat, s with
  | EmptyString, _ => true
  | String a pat', String b s' => bool_decide (a = b) && startsWith pat' s'
  | String _ _, EmptyString => false
  end.

(** [s.replace(/pat/g, '')] for a literal, non-empty [pat]: every match,
    scanning from the left, is dropped.  [skip] counts the code units of the
    current match that are still to be dropped. *)
Fixpoint removeAll_go (pat : string) (skip : nat) (s : string) : string :=
  match s with
  | EmptyString => EmptyString
  | String c s' =>
      match skip with
      | S k => removeAll_go pat k s'
      | O =>
          if startsWith pat s
          then removeAll_go pat (String.length pat - 1) s'
          else String c (removeAll_go pat O s')
      end
  end.

Definition removeAll (pat s : string) : string := removeAll_go pat 0 s.

(** [s.includes(pat)] *)
Fixpoint includes (pat s : string) : bool :=
  match s with
  | EmptyString => startsWith pat EmptyString
  | String _ s' => startsWith pat s || includes pat s'
  end.

(** The double quote, and a string between double quotes. *)
Definition dquote : string := String "034"%char EmptyString.
Definition quoted (s : string) : string := dquote +:+ s +:+ dquote.

(** The line feed. *)
Definition LF : string := String "010"%char EmptyString.

End JS.

(** ** types.ts *)

Inductive WorkflowStatus := Draft | Generated | Deployed.

Module WorkflowStep.
Record t := mk { id : string; action : string; service : string }.
End WorkflowStep.

Module WorkflowPlan.
Record t := mk { name : string; description : string; steps : list WorkflowStep.t }.
End WorkflowPlan.

Module Workflow.
Record t := mk {
  id : string;
  name : string;
  description : string;
  prompt : string;
  plan : option WorkflowPlan.t;
  script : option string;
  status : WorkflowStatus;
  createdAt : Z
}.
End Workflow.

Inductive Role := user | model.

Module ChatMessage.
Record t := mk { role : Role; text : string }.
End ChatMessage.

Inductive WizardStep := Describe | Review | Deploy.

(** The numeric value of the enum, [Describe = 0, Review = 1, Deploy = 2]. *)
Definition WizardStep_value (s : WizardStep) : Z :=
  match s with Describe => 0 | Review => 1 | Deploy => 2 end.

Global Instance WorkflowStatus_eq_dec : EqDecision WorkflowStatus.
Proof. solve_decision. Defined.
Global Instance WizardStep_eq_dec : EqDecision WizardStep.
Proof. solve_decision. Defined.
Global Instance Role_eq_dec : EqDecision Role.
Proof. solve_decision. Defined.

(** ** JSON values *)

(** What [JSON.parse] returns: null, a boolean, a number (a binary64 float,
    by sign, mantissa and exponent), a string, an array, or an object with
    its own properties. *)
Module JSON.
#[warnings="-register-all"] Inductive value :=
| Null
| Bool (b : bool)
| Number (x : spec_float)
| Str (s : string)
| Array (items : list value)
| Object (properties : list (string * value)).

(** [v.key], for [v] other than null and a [key] that no prototype defines
    (as [isValid], [question], [plan], [name] and [description]): the own
    property of an object, undefined ([None]) on anything else. *)
Definition get (key : string) (v : value) : option value :=
  match v with
  | Object properties => snd <$> List.find (fun p => bool_decide (p.1 = key)) properties
  | _ => None
  end.

(** Truthiness: null, false, 0, -0, NaN and the empty string are falsy. *)
Definition truthy (v : value) : bool :=
  match v with
  | Null => false
  | Bool b => b
  | Number (S754_zero _) | Number S754_nan => false
  | Number _ => true
  | Str s => JS.truthy s
  | Array _ | Object _ => true
  end.

(** Truthiness of a value that may be undefined. *)
Definition truthyOpt (o : option value) : bool :=
  match o with
  | Some v => truthy v
  | None => false
  end.
End JSON.

(** ** services/geminiService.ts *)

(** A request to [ai.models.generateContent]. *)
Record Request := mkRequest { model_ : string; contents : string }.

(** What the completion service does with one request: the promise is
    rejected (transport failure, time-out, refusal), or it is fulfilled with
    a response whose [text] may be undefined. *)
Inductive AiResponse :=
| Rejects (err : string)
| Responds (text : option string).

(** The state a promise settles in. *)
Inductive Settled (A : Type) :=
| Fulfilled (a : A)
| Rejected (err : string).
Arguments Fulfilled {A} a.
Arguments Rejected {A} err.

(** [interface PlanGenerationResult].  [isValid] is the truthiness of the
    decoded [isValid], the only way the wizard looks at it; [question] and
    [plan], when present, have their declared types. *)
Module PlanGenerationResult.
Record t := mk {
  isValid : bool;
  question : option string;
  plan : option WorkflowPlan.t
}.
End PlanGenerationResult.

(** What [generateAutomationPlan] resolves to at run time: the three
    properties as read off the parsed value, whatever they are ([None]:
    undefined).  The cast [as WorkflowPlan] checks nothing. *)
Module UntypedResult.
Record t := mk {
  isValid : option JSON.value;
  question : option JSON.value;
  plan : option JSON.value
}.
End UntypedResult.

(** The text of the plan request around the user's words. *)
Definition planPromptHead : string :=
  JS.join JS.LF [
    "";
    "    Role: You are an expert Google Apps Script Solution Architect.";
    "    ";
    "    Task: Analyze the following automation request to determine if it is specific enough to build.";
    "    "
  ] +:+ JS.dquote.

Definition planPromptTail : string :=
  JS.dquote +:+ JS.join JS.LF [
    "";
    "    ";
    "    Validation Rules:";
    "    1.  **Trigger**: Is it clear WHEN this runs? (e.g., " +:+ JS.quoted "Daily" +:+ ", "
      +:+ JS.quoted "On Form Submit" +:+ ", " +:+ JS.quoted "When email arrives" +:+ "). "
      +:+ JS.quoted "Automatically" +:+ " is too vague.";
    "    2.  **Services**: Are specific Google services named? (e.g., " +:+ JS.quoted "Gmail"
      +:+ " vs " +:+ JS.quoted "Email" +:+ ", " +:+ JS.quoted "Sheets" +:+ " vs "
      +:+ JS.quoted "Excel" +:+ ").";
    "    3.  **Action**: Is the data flow clear?";
    "";
    "    Logic:";
    "    - If CRITICAL details are missing, set 'isValid' to false and put a polite but direct question in 'question'.";
    "    - If the request is sufficient (even if simple), set 'isValid' to true and generate the 'plan'.";
    "    ";
    "    Plan Rules:";
    "    - The " +:+ JS.quoted "action" +:+ " field must be technical (e.g., "
      +:+ JS.quoted "Query Gmail API for label 'Invoices'" +:+ ").";
    "    "
  ].

(** The examples further down run the service functions on a fragment of
    the two JSON built-ins.  [JSON_parse_fragment] knows three texts, each
    with what [JSON.parse] and the three property reads of
    [generateAutomationPlan] give on it; on any other text it behaves as on
    a text that is not JSON. *)
Definition clarificationText : string :=
  "{" +:+ JS.quoted "isValid" +:+ ":false," +:+ JS.quoted "question" +:+ ":"
      +:+ JS.quoted "Which email provider?" +:+ "}".

Definition invoicePlan : WorkflowPlan.t :=
  WorkflowPlan.mk "Invoice Notifier" "Notify about invoices"
    [WorkflowStep.mk "1" "Poll Gmail for label Invoices" "Gmail"].

Definition acceptedText : string :=
  "{" +:+ JS.quoted "isValid" +:+ ":true," +:+ JS.quoted "plan" +:+ ":{"
      +:+ JS.quoted "name" +:+ ":" +:+ JS.quoted "Invoice Notifier" +:+ ","
      +:+ JS.quoted "description" +:+ ":" +:+ JS.quoted "Notify about invoices" +:+ ","
      +:+ JS.quoted "steps" +:+ ":[{"
      +:+ JS.quoted "id" +:+ ":" +:+ JS.quoted "1" +:+ ","
      +:+ JS.quoted "action" +:+ ":" +:+ JS.quoted "Poll Gmail for label Invoices" +:+ ","
      +:+ JS.quoted "service" +:+ ":" +:+ JS.quoted "Gmail" +:+ "}]}}".

Definition JSON_parse_fragment (text : string) : option PlanGenerationResult.t :=
  if decide (text = "{}") then
    Some (PlanGenerationResult.mk false None None)
  else if decide (text = clarificationText) then
    Some (PlanGenerationResult.mk false (Some "Which email provider?") None)
  else if decide (text = acceptedText) then
    Some (PlanGenerationResult.mk true None (Some invoicePlan))
  else None.

(** [JSON.stringify] of a plan none of whose strings needs an escape. *)
Definition JSON_stringify_step (s : WorkflowStep.t) : string :=
  "{" +:+ JS.quoted "id" +:+ ":" +:+ JS.quoted (WorkflowStep.id s) +:+ ","
      +:+ JS.quoted "action" +:+ ":" +:+ JS.quoted (WorkflowStep.action s) +:+ ","
      +:+ JS.quoted "service" +:+ ":" +:+ JS.quoted (WorkflowStep.service s) +:+ "}".

Definition JSON_stringify_fragment (p : WorkflowPlan.t) : string :=
  "{" +:+ JS.quoted "name" +:+ ":" +:+ JS.quoted (WorkflowPlan.name p) +:+ ","
      +:+ JS.quoted "description" +:+ ":" +:+ JS.quoted (WorkflowPlan.description p) +:+ ","
      +:+ JS.quoted "steps" +:+ ":["
      +:+ JS.join "," (JSON_stringify_step <$> WorkflowPlan.steps p) +:+ "]}".

(** ** components/WorkflowWizard.tsx: the component state *)

(** The [useState] cells of [WorkflowWizard] that the handlers read or
    write.  (The recording flag and the cells of the animated placeholder
    only feed the display.) *)
Module WizardState.
Record t := mk {
  step : WizardStep;
  loading : bool;
  promptText : string;
  conversationHistory : list ChatMessage.t;
  clarificationQuestion : option string
}.
End WizardState.

(** What one run of a handler of the wizard leaves behind: the component
    state, the workflows passed to [onUpdate] (in order), the requests sent
    to the completion service (in order), and the error the handler's
    promise is rejected with, if any (no handler has a [catch]). *)
Module Ran.
Record t := mk {
  state : WizardState.t;
  onUpdate : list Workflow.t;
  sent : list Request;
  uncaught : option string
}.
End Ran.

(** The same at run time, where the answer of the completion service may
    put a value of any type where a string or a plan is declared: the text
    of a turn and the pending question ([None]: null), the name and the
    description of a workflow ([None]: undefined) and its plan. *)
Module UntypedMessage.
Record t := mk { role : Role; text : JSON.value }.
End UntypedMessage.

Module UntypedState.
Record t := mk {
  step : WizardStep;
  loading : bool;
  promptText : string;
  conversationHistory : list UntypedMessage.t;
  clarificationQuestion : option JSON.value
}.
End UntypedState.

Module UntypedWorkflow.
Record t := mk {
  id : string;
  name : option JSON.value;
  description : option JSON.value;
  prompt : string;
  plan : JSON.value;
  script : option string;
  status : WorkflowStatus;
  createdAt : Z
}.
End UntypedWorkflow.

Module UntypedRan.
Record t := mk {
  state : UntypedState.t;
  onUpdate : list UntypedWorkflow.t;
  sent : list Request;
  uncaught : option string
}.
End UntypedRan.

(** A value of the declared types as a value at run time. *)
Definition untypedMessage (m : ChatMessage.t) : UntypedMessage.t :=
  UntypedMessage.mk (ChatMessage.role m) (JSON.Str (ChatMessage.text m)).

Definition untypedState (s : WizardState.t) : UntypedState.t :=
  UntypedState.mk (WizardState.step s) (WizardState.loading s)
    (WizardState.promptText s)
    (untypedMessage <$> WizardState.conversationHistory s)
    (JSON.Str <$> WizardState.clarificationQuestion s).

Definition JSON_of_step (step : WorkflowStep.t) : JSON.value :=
  JSON.Object [("id", JSON.Str (WorkflowStep.id step));
               ("action", JSON.Str (WorkflowStep.action step));
               ("service", JSON.Str (WorkflowStep.service step))].

Definition JSON_of_plan (plan : WorkflowPlan.t) : JSON.value :=
  JSON.Object [("name", JSON.Str (WorkflowPlan.name plan));
               ("description", JSON.Str (WorkflowPlan.description plan));
               ("steps", JSON.Array (JSON_of_step <$> WorkflowPlan.steps plan))].

Definition JSON_of_result (result : PlanGenerationResult.t) : JSON.value :=
  JSON.Object
    ([("isValid", JSON.Bool (PlanGenerationResult.isValid result))]
       ++ match PlanGenerationResult.question result with
          | Some question => [("question", JSON.Str question)]
          | None => []
          end
       ++ match PlanGenerationResult.plan result with
          | Some plan => [("plan", JSON_of_plan plan)]
          | None => []
          end).

Definition untypedWorkflow (w : Workflow.t) : UntypedWorkflow.t :=
  UntypedWorkflow.mk (Workflow.id w)
    (Some (JSON.Str (Workflow.name w)))
    (Some (JSON.Str (Workflow.description w)))
    (Workflow.prompt w)
    (match Workflow.plan w with Some plan => JSON_of_plan plan | None => JSON.Null end)
    (Workflow.script w) (Workflow.status w) (Workflow.createdAt w).

Definition untypedRan (r : Ran.t) : UntypedRan.t :=
  UntypedRan.mk (untypedState (Ran.state r)) (untypedWorkflow <$> Ran.onUpdate r)
    (Ran.sent r) (Ran.uncaught r).

(** The shape [interface PlanGenerationResult] declares, with
    [interface WorkflowPlan] and [interface WorkflowStep] of types.ts: an
    object whose [isValid] is a boolean, whose [question], if any, is a
    string, and whose [plan], if any, is an object with a string [name], a
    string [description] and an array [steps] of objects with strings [id],
    [action] and [service]. *)
Definition isStr (o : option JSON.value) : bool :=
  match o with Some (JSON.Str _) => true | _ => false end.

Definition stepShape (v : JSON.value) : bool :=
  isStr (JSON.get "id" v) && isStr (JSON.get "action" v) && isStr (JSON.get "service" v).

Definition planShape (v : JSON.value) : bool :=
  isStr (JSON.get "name" v) && isStr (JSON.get "description" v)
  && match JSON.get "steps" v with
     | Some (JSON.Array items) => forallb stepShape items
     | _ => false
     end.

Definition hasExpectedShape (v : JSON.value) : bool :=
  match JSON.get "isValid" v with Some (JSON.Bool _) => true | _ => false end
  && match JSON.get "question" v with
     | None => true
     | Some question => isStr (Some question)
     end
  && match JSON.get "plan" v with
     | None => true
     | Some plan => planShape plan
     end.



(** ** App.tsx: the application state *)

Inductive View := ViewDashboard | ViewWizard | ViewSettings.

Global Instance View_eq_dec : EqDecision View.
Proof. solve_decision. Defined.

(** The [useState] cells of [App] behind the store and the views, the state
    of the wizard while it is mounted, and two ghost fields: every request
    sent to the completion service so far and every error left unhandled. *)
Module App.
Record t := mk {
  view : View;
  activeWorkflowId : option string;
  workflows : list Workflow.t;
  mounted : option WizardState.t;
  log : list Request;
  unhandled : list string
}.
End App.

(** What the user does, with what the outside world answers.
    - On the dashboard: the New Workflow card (with the UUID and the clock
      reading it will get), a click on a row, a confirmed delete.
    - In the side bar: Home and Settings (with the confirmation given).
    - In the wizard: Back to Dashboard / Return to Dashboard, a new value
      of the input (typed into the text area), the Design
      Workflow / Submit Answer button, Refine Instructions, Generate Script;
      the two buttons that call the completion service come with its
      answer.
    The microphone is not among them: what a recording that stops does is
    given by [handleRecordingStopped], on its own. *)
Inductive Event :=
| ClickNewWorkflow (uuid : string) (now : Z)
| ClickWorkflow (id : string)
| ClickDelete (id : string)
| ClickHome
| ClickSettings
| ClickClose
| TypePrompt (value : string)
| ClickGeneratePlan (reply : AiResponse)
| ClickRefine
| ClickGenerateScript (reply : AiResponse).

(** One clarification round of a session: what the user submits, what the
    completion service answers, and the question that answer carries. *)
Module ClarificationRound.
Record t := mk { utterance : string; answer : AiResponse; question : string }.
End ClarificationRound.

(** ** services/geminiService.ts: the chat and the transcription *)

(** An entry of the history handed to [ai.chats.create]:
    [{ role, parts: [{ text }] }]. *)
Module ChatTurn.
Record t := mk { role : Role; parts : list string }.
End ChatTurn.

(** What [ai.chats.create] and [chatSession.sendMessage] are given. *)
Module ChatRequest.
Record t := mk {
  model_ : string;
  history : list ChatTurn.t;
  systemInstruction : string;
  message : string
}.
End ChatRequest.

(** [chatWithFlowAI(history, message)] when the completion service answers
    [reply]. *)
Definition chatWithFlowAI (reply : AiResponse) (history : list ChatTurn.t)
    (message : string) : ChatRequest.t * Settled string :=
  (ChatRequest.mk "gemini-3-flash-preview" history
     "You are FlowAI, a helpful assistant for Google Apps Script automation. Be technical, helpful, and concise."
     message,
   match reply with
   | Rejects err => Rejected err
   | Responds response_text => Fulfilled (JS.orElse response_text "Error occurred.")
   end).

(** A recording: its media type and its content in base 64, as
    [blobToBase64] resolves it. *)
Module AudioBlob.
Record t := mk { mimeType : string; base64Data : string }.
End AudioBlob.

(** The request of [transcribeAudio]: the inline data and the instruction. *)
Module TranscriptionRequest.
Record t := mk {
  model_ : string;
  mimeType : string;
  data : string;
  instruction : string
}.
End TranscriptionRequest.

(** [transcribeAudio(audioBlob)] when the completion service answers
    [reply]. *)
Definition transcribeAudio (reply : AiResponse) (audioBlob : AudioBlob.t)
  : TranscriptionRequest.t * Settled string :=
  (TranscriptionRequest.mk "gemini-3-flash-preview" (AudioBlob.mimeType audioBlob)
     (AudioBlob.base64Data audioBlob) "Transcribe exactly as spoken.",
   match reply with
   | Rejects err => Rejected err
   | Responds response_text => Fulfilled (JS.orElse response_text "")
   end).

(** ** components/FluAIAssistant.tsx *)

(** [interface ChatMessage] of types.ts, with its optional flag. *)
Module AssistantMessage.
Record t := mk { role : Role; text : string; isError : option bool }.
End AssistantMessage.

(** The [useState] cells of [FlowAIAssistant]. *)
Module AssistantState.
Record t := mk {
  isOpen : bool;
  messages : list AssistantMessage.t;
  input : string;
  loading : bool
}.
End AssistantState.

Definition greeting : AssistantMessage.t :=
  AssistantMessage.mk model
    "Hello. I am FlowAI. How can I assist with your automation architecture today?"
    None.

(** The assistant at mount. *)
Definition assistantInitial : AssistantState.t :=
  AssistantState.mk false [greeting] "" false.

(** [handleSend], run to completion when the completion service answers
    [reply]: the state it leaves and the chats it started.  Its [catch]
    takes every failure of the call, so it leaves no error. *)
Definition handleSend (reply : AiResponse) (s : AssistantState.t)
  : AssistantState.t * list ChatRequest.t :=
  let input := AssistantState.input s in
  let messages := AssistantState.messages s in
  if negb (JS.truthy (JS.trim input)) then (s, [])
  else
    let userMsg := AssistantMessage.mk user input None in
    let history :=
      (fun m => ChatTurn.mk (AssistantMessage.role m) [AssistantMessage.text m])
        <$> messages in
    let '(request, settled) :=
      chatWithFlowAI reply history (AssistantMessage.text userMsg) in
    let answer :=
      match settled with
      | Fulfilled responseText => AssistantMessage.mk model responseText None
      | Rejected _ =>
          AssistantMessage.mk model "I encountered an error. Please try again."
            (Some true)
      end in
    (AssistantState.mk (AssistantState.isOpen s) ((messages ++ [userMsg]) ++ [answer])
       "" false,
     [request]).

Definition setIsOpen (v : bool) (s : AssistantState.t) : AssistantState.t :=
  AssistantState.mk v (AssistantState.messages s) (AssistantState.input s)
    (AssistantState.loading s).

Definition setInput (v : string) (s : AssistantState.t) : AssistantState.t :=
  AssistantState.mk (AssistantState.isOpen s) (AssistantState.messages s) v
    (AssistantState.loading s).

(** The messages of a list of exchanges (what the user sent, what was put
    under it). *)
Definition exchangesOf (exchanges : list (string * AssistantMessage.t))
  : list AssistantMessage.t :=
  exchanges ≫= fun x => [AssistantMessage.mk user x.1 None; x.2].

(** The messages of the assistant are the greeting followed by whole
    exchanges, each a message of the user that is not blank and a message of
    the model that is not empty, and the assistant is not loading. *)
Definition inExchanges (s : AssistantState.t) : Prop :=
  AssistantState.loading s = false
  /\ exists exchanges,
       AssistantState.messages s = greeting :: exchangesOf exchanges
       /\ Forall (fun x => JS.trim x.1 <> ""
                            /\ AssistantMessage.role x.2 = model
                            /\ AssistantMessage.text x.2 <> "") exchanges.

(** ** App.tsx: the theme *)

(** The [darkMode] cell, the entry [flowai_theme] of local storage, and
    whether the document element carries the class [dark]. *)
Module Theme.
Record t := mk { darkMode : bool; savedTheme : option string; htmlDark : bool }.
End Theme.

(** The effect that initialises the theme, when the system prefers dark
    ([prefersDark]) or not. *)
Definition initTheme (prefersDark : bool) (t : Theme.t) : Theme.t :=
  let savedTheme := Theme.savedTheme t in
  if bool_decide (savedTheme = Some "dark")
     || (negb (JS.truthyOpt savedTheme) && prefersDark)
  then Theme.mk true savedTheme true
  else Theme.mk false savedTheme false.

(** [toggleTheme] *)
Definition toggleTheme (t : Theme.t) : Theme.t :=
  let newMode := negb (Theme.darkMode t) in
  Theme.mk newMode (Some (if newMode then "dark" else "light")) newMode.

(** No code unit of [s] is a backtick. *)
Fixpoint noBacktick (s : string) : bool :=
  match s with
  | EmptyString => true
  | String c s' => negb (bool_decide (c = "`"%char)) && noBacktick s'
  end.

(** The inputs of the examples. *)
Definition blankWorkflow : Workflow.t :=
  Workflow.mk "wf-1" "" "" "" None None Draft 0.

Definition plannedWorkflow : Workflow.t :=
  Workflow.mk "wf-1" "Invoice Notifier" "Notify about invoices"
    "check Gmail hourly for invoices" (Some invoicePlan) None Draft 0.

Definition scriptOnlyWorkflow : Workflow.t :=
  Workflow.mk "wf-2" "" "" "" None (Some "function run() {}") Draft 0.

Definition describing (promptText : string) : WizardState.t :=
  WizardState.mk Describe false promptText [] None.

Definition answering : WizardState.t :=
  WizardState.mk Describe false "Gmail, every hour"
    [ChatMessage.mk user "notify me about invoices";
     ChatMessage.mk model "Which email provider?"]
    (Some "Which email provider?").

Definition reviewing : WizardState.t :=
  WizardState.mk Review false "check Gmail hourly for invoices" [] None.

Definition invoiceRound : ClarificationRound.t :=
  ClarificationRound.mk "notify me about invoices"
    (Responds (Some clarificationText)) "Which email provider?".

(** An answer of the code generation between fences, and the code in it. *)
Definition fencedBody : string := JS.LF +:+ "function run() {}" +:+ JS.LF.

Definition fencedAnswer : string := "```javascript" +:+ fencedBody +:+ "```".

(** A store of two workflows, and the wizard on the second of them after
    the first was left. *)
Definition twoWorkflowsSession : list Event :=
  [ClickNewWorkflow "wf-2" 0;
   ClickHome;
   ClickNewWorkflow "wf-1" 0;
   TypePrompt "check Gmail hourly for invoices"].

(** The assistant, open, with a question typed. *)
Definition asking : AssistantState.t :=
  AssistantState.mk true [greeting] "How do I send mail?" false.

(** A session up to the accepted plan: create, describe, accept. *)
Definition acceptedSession : list Event :=
  [ClickNewWorkflow "wf-1" 0;
   TypePrompt "check Gmail hourly for invoices";
   ClickGeneratePlan (Responds (Some acceptedText))].


Section Program.

(** [JSON.parse] followed by the reads of [isValid], [question] and [plan]
    on its result ([None]: one of them throws), and [JSON.stringify] on a
    plan. *)
Variable JSON_parse : string -> option PlanGenerationResult.t.
Variable JSON_stringify : WorkflowPlan.t -> string.

(** [JSON.parse] itself, on the text of an answer ([None]: it throws). *)
Variable JSON_parse_value : string -> option JSON.value.

(** *** services/geminiService.ts, continued *)

(** [generateAutomationPlan(userPrompt, history)] when the completion service
    answers [reply]: the request it sends and how its promise settles. *)
Definition generateAutomationPlan (reply : AiResponse)
    (userPrompt : string) (history : list string)
  : Request * Settled PlanGenerationResult.t :=
  let contextStr :=
    if bool_decide (0 < length history)%nat
    then "Previous conversation context:" +:+ JS.LF +:+ JS.join JS.LF history
           +:+ JS.LF +:+ JS.LF +:+ "Current Request: "
    else "" in
  let request :=
    mkRequest "gemini-3-pro-preview"
      (planPromptHead +:+ contextStr +:+ userPrompt +:+ planPromptTail) in
  (request,
   match reply with
   | Rejects err => Rejected err
   | Responds response_text =>
       let text := JS.orElse response_text "{}" in
       match JSON_parse text with
       | Some result => Fulfilled result
       | None => Rejected "AI generated an invalid format."
       end
   end).

(** [generateAutomationPlan] at run time, on whatever [JSON.parse] returns.
    Reading a property of null throws inside the [try]; on any other value
    the three reads give the property or undefined, and nothing checks
    them. *)
Definition generateAutomationPlan_untyped (reply : AiResponse)
    (userPrompt : string) (history : list string)
  : Request * Settled UntypedResult.t :=
  let contextStr :=
    if bool_decide (0 < length history)%nat
    then "Previous conversation context:" +:+ JS.LF +:+ JS.join JS.LF history
           +:+ JS.LF +:+ JS.LF +:+ "Current Request: "
    else "" in
  let request :=
    mkRequest "gemini-3-pro-preview"
      (planPromptHead +:+ contextStr +:+ userPrompt +:+ planPromptTail) in
  (request,
   match reply with
   | Rejects err => Rejected err
   | Responds response_text =>
       let text := JS.orElse response_text "{}" in
       match JSON_parse_value text with
       | None | Some JSON.Null => Rejected "AI generated an invalid format."
       | Some result =>
           Fulfilled
             (UntypedResult.mk (JSON.get "isValid" result)
                (JSON.get "question" result) (JSON.get "plan" result))
       end
   end).

(** [generateScript(plan, originalPrompt)] when the completion service
    answers [reply]. *)
Definition generateScript (reply : AiResponse)
    (plan : WorkflowPlan.t) (originalPrompt : string)
  : Request * Settled string :=
  let request :=
    mkRequest "gemini-3-pro-preview"
      ("Generate a production-ready Google Apps Script for this plan: "
         +:+ JSON_stringify plan +:+ ". Context: " +:+ originalPrompt
         +:+ ". Use modern ES6+ features and include robust error handling. Return only code.") in
  (request,
   match reply with
   | Rejects err => Rejected err
   | Responds response_text =>
       Fulfilled
         (JS.trim (JS.removeAll "```" (JS.removeAll "```javascript"
            (JS.orElse response_text ""))))
   end).

(** *** components/WorkflowWizard.tsx *)

(** The initial value of the [step] cell. *)
Definition initialStep (workflow : Workflow.t) : WizardStep :=
  if JS.truthyOpt (Workflow.script workflow) then Deploy
  else if bool_decide (is_Some (Workflow.plan workflow)) then Review
  else Describe.

(** The component state at mount. *)
Definition useState_initial (workflow : Workflow.t) : WizardState.t :=
  WizardState.mk (initialStep workflow) false (Workflow.prompt workflow) [] None.

Definition setStep (v : WizardStep) (s : WizardState.t) : WizardState.t :=
  WizardState.mk v (WizardState.loading s) (WizardState.promptText s)
    (WizardState.conversationHistory s) (WizardState.clarificationQuestion s).

Definition setLoading (v : bool) (s : WizardState.t) : WizardState.t :=
  WizardState.mk (WizardState.step s) v (WizardState.promptText s)
    (WizardState.conversationHistory s) (WizardState.clarificationQuestion s).

Definition setPromptText (v : string) (s : WizardState.t) : WizardState.t :=
  WizardState.mk (WizardState.step s) (WizardState.loading s) v
    (WizardState.conversationHistory s) (WizardState.clarificationQuestion s).

Definition setConversationHistory (v : list ChatMessage.t) (s : WizardState.t)
  : WizardState.t :=
  WizardState.mk (WizardState.step s) (WizardState.loading s)
    (WizardState.promptText s) v (WizardState.clarificationQuestion s).

Definition setClarificationQuestion (v : option string) (s : WizardState.t)
  : WizardState.t :=
  WizardState.mk (WizardState.step s) (WizardState.loading s)
    (WizardState.promptText s) (WizardState.conversationHistory s) v.

(** [`${m.role === 'user' ? 'User' : 'AI'}: ${m.text}`] *)
Definition historyLine (m : ChatMessage.t) : string :=
  (if decide (ChatMessage.role m = user) then "User" else "AI")
    +:+ ": " +:+ ChatMessage.text m.

(** [handleGeneratePlan], run on the props and the state of the render in
    which the button was clicked. *)
Definition handleGeneratePlan (workflow : Workflow.t) (reply : AiResponse)
    (s : WizardState.t) : Ran.t :=
  let promptText := WizardState.promptText s in
  let conversationHistory := WizardState.conversationHistory s in
  if negb (JS.truthy (JS.trim promptText)) then Ran.mk s [] [] None
  else
    let s1 := setClarificationQuestion None (setLoading true s) in
    let historyStr := historyLine <$> conversationHistory in
    let '(request, settled) := generateAutomationPlan reply promptText historyStr in
    match settled with
    | Rejected err => Ran.mk (setLoading false s1) [] [request] (Some err)
    | Fulfilled result =>
        match PlanGenerationResult.isValid result, PlanGenerationResult.plan result with
        | true, Some plan =>
            let finalPromptContext :=
              JS.join " "
                (ChatMessage.text <$>
                   (conversationHistory ++ [ChatMessage.mk user promptText])) in
            let updated :=
              Workflow.mk (Workflow.id workflow)
                (WorkflowPlan.name plan)
                (WorkflowPlan.description plan)
                finalPromptContext
                (Some plan)
                (Workflow.script workflow)
                Draft
                (Workflow.createdAt workflow) in
            Ran.mk (setLoading false (setStep Review s1)) [updated] [request] None
        | _, _ =>
            match PlanGenerationResult.question result with
            | Some question =>
                if JS.truthy question then
                  let newHistory :=
                    conversationHistory
                      ++ [ChatMessage.mk user promptText; ChatMessage.mk model question] in
                  Ran.mk
                    (setLoading false
                       (setPromptText ""
                          (setClarificationQuestion (Some question)
                             (setConversationHistory newHistory s1))))
                    [] [request] None
                else Ran.mk (setLoading false s1) [] [request] None
            | None => Ran.mk (setLoading false s1) [] [request] None
            end
        end
    end.

(** [handleGeneratePlan] at run time, on the props and on a state whose
    texts are strings: what it leaves when the answer of the completion
    service is of any shape. *)
Definition handleGeneratePlan_untyped (workflow : Workflow.t) (reply : AiResponse)
    (s : WizardState.t) : UntypedRan.t :=
  let promptText := WizardState.promptText s in
  let conversationHistory := WizardState.conversationHistory s in
  if negb (JS.truthy (JS.trim promptText)) then UntypedRan.mk (untypedState s) [] [] None
  else
    let s1 := setClarificationQuestion None (setLoading true s) in
    let historyStr := historyLine <$> conversationHistory in
    let '(request, settled) :=
      generateAutomationPlan_untyped reply promptText historyStr in
    match settled with
    | Rejected err =>
        UntypedRan.mk (untypedState (setLoading false s1)) [] [request] (Some err)
    | Fulfilled result =>
        let accepted :=
          match UntypedResult.plan result with
          | Some plan =>
              if JSON.truthyOpt (UntypedResult.isValid result) && JSON.truthy plan
              then Some plan else None
          | None => None
          end in
        match accepted with
        | Some plan =>
            let finalPromptContext :=
              JS.join " "
                (ChatMessage.text <$>
                   (conversationHistory ++ [ChatMessage.mk user promptText])) in
            let updated :=
              UntypedWorkflow.mk (Workflow.id workflow)
                (JSON.get "name" plan)
                (JSON.get "description" plan)
                finalPromptContext
                plan
                (Workflow.script workflow)
                Draft
                (Workflow.createdAt workflow) in
            UntypedRan.mk (untypedState (setLoading false (setStep Review s1)))
              [updated] [request] None
        | None =>
            match UntypedResult.question result with
            | Some question =>
                if JSON.truthy question then
                  let newHistory :=
                    (untypedMessage <$> conversationHistory)
                      ++ [UntypedMessage.mk user (JSON.Str promptText);
                          UntypedMessage.mk model question] in
                  UntypedRan.mk
                    (UntypedState.mk (WizardState.step s) false "" newHistory
                       (Some question))
                    [] [request] None
                else UntypedRan.mk (untypedState (setLoading false s1)) [] [request] None
            | None => UntypedRan.mk (untypedState (setLoading false s1)) [] [request] None
            end
        end
    end.

(** [handleGenerateScript] *)
Definition handleGenerateScript (workflow : Workflow.t) (reply : AiResponse)
    (s : WizardState.t) : Ran.t :=
  match Workflow.plan workflow with
  | None => Ran.mk s [] [] None
  | Some plan =>
      let s1 := setLoading true s in
      let '(request, settled) := generateScript reply plan (Workflow.prompt workflow) in
      match settled with
      | Rejected err => Ran.mk (setLoading false s1) [] [request] (Some err)
      | Fulfilled code =>
          let updated :=
            Workflow.mk (Workflow.id workflow)
              (Workflow.name workflow)
              (Workflow.description workflow)
              (Workflow.prompt workflow)
              (Workflow.plan workflow)
              (Some code)
              Generated
              (Workflow.createdAt workflow) in
          Ran.mk (setLoading false (setStep Deploy s1)) [updated] [request] None
      end
  end.

(** The [onClick] of Refine Instructions. *)
Definition handleRefine (s : WizardState.t) : WizardState.t := setStep Describe s.

(** The [onstop] handler of the recorder, run to completion when the
    completion service answers [reply]: the component state it leaves, the
    request it sent and the error it left unhandled, if any.  The recording
    is of type [audio/webm]; [base64Data] is its content. *)
Definition handleRecordingStopped (base64Data : string) (reply : AiResponse)
    (s : WizardState.t)
  : WizardState.t * TranscriptionRequest.t * option string :=
  let audioBlob := AudioBlob.mk "audio/webm" base64Data in
  let s1 := setLoading true s in
  let '(request, settled) := transcribeAudio reply audioBlob in
  match settled with
  | Fulfilled text =>
      let prev := WizardState.promptText s1 in
      (setLoading false
         (setPromptText (if JS.truthy prev then prev +:+ " " +:+ text else text) s1),
       request, None)
  | Rejected err => (setLoading false s1, request, Some err)
  end.

(** *** App.tsx *)

(** [setWorkflows(prev => prev.filter(w => w.id !== id))] *)
Definition handleDeleteWorkflow (id : string) (prev : list Workflow.t)
  : list Workflow.t :=
  filter (fun w => Workflow.id w <> id) prev.

(** [setWorkflows(prev => prev.map(w => w.id === updated.id ? updated : w))] *)
Definition handleUpdateWorkflow (updated : Workflow.t) (prev : list Workflow.t)
  : list Workflow.t :=
  (fun w => if decide (Workflow.id w = Workflow.id updated) then updated else w)
    <$> prev.

(** [w => w.id === id] *)
Definition hasId (id : string) (w : Workflow.t) : bool :=
  bool_decide (Workflow.id w = id).

(** [workflows.find(w => w.id === activeWorkflowId)] *)
Definition activeWorkflow (a : App.t) : option Workflow.t :=
  match App.activeWorkflowId a with
  | Some id => List.find (hasId id) (App.workflows a)
  | None => None
  end.

(** The wizard is rendered when [view === 'wizard' && activeWorkflow]: it
    keeps its state while it stays mounted and starts from
    [useState_initial] when it is mounted. *)
Definition render (a : App.t) : App.t :=
  let wizard :=
    if decide (App.view a = ViewWizard) then
      match activeWorkflow a with
      | Some workflow =>
          Some (match App.mounted a with
                | Some s => s
                | None => useState_initial workflow
                end)
      | None => None
      end
    else None in
  App.mk (App.view a) (App.activeWorkflowId a) (App.workflows a) wizard
    (App.log a) (App.unhandled a).

Definition handleCreateNew (uuid : string) (now : Z) (a : App.t) : App.t :=
  let newWorkflow := Workflow.mk uuid "" "" "" None None Draft now in
  App.mk ViewWizard (Some (Workflow.id newWorkflow))
    (newWorkflow :: App.workflows a) (App.mounted a) (App.log a) (App.unhandled a).

Definition handleSelectWorkflow (id : string) (a : App.t) : App.t :=
  App.mk ViewWizard (Some id) (App.workflows a) (App.mounted a)
    (App.log a) (App.unhandled a).

Definition handleCloseWizard (a : App.t) : App.t :=
  App.mk ViewDashboard None (App.workflows a) (App.mounted a)
    (App.log a) (App.unhandled a).

Definition setView (v : View) (a : App.t) : App.t :=
  App.mk v (App.activeWorkflowId a) (App.workflows a) (App.mounted a)
    (App.log a) (App.unhandled a).

Definition setWorkflows (f : list Workflow.t -> list Workflow.t) (a : App.t) : App.t :=
  App.mk (App.view a) (App.activeWorkflowId a) (f (App.workflows a)) (App.mounted a)
    (App.log a) (App.unhandled a).

(** The application after a handler of the wizard has run: the new component
    state, the store after the [onUpdate] calls, the requests and the
    unhandled error recorded. *)
Definition commit (r : Ran.t) (a : App.t) : App.t :=
  App.mk (App.view a) (App.activeWorkflowId a)
    (foldl (fun prev updated => handleUpdateWorkflow updated prev)
       (App.workflows a) (Ran.onUpdate r))
    (Some (Ran.state r))
    (App.log a ++ Ran.sent r)
    (App.unhandled a ++ match Ran.uncaught r with Some e => [e] | None => [] end).

(** One event.  An event whose control is not on the screen, or is
    disabled, changes nothing. *)
Definition dispatch (a : App.t) (e : Event) : App.t :=
  match e with
  | ClickNewWorkflow uuid now =>
      if decide (App.view a = ViewDashboard) then render (handleCreateNew uuid now a)
      else a
  | ClickWorkflow id =>
      if decide (App.view a = ViewDashboard) then render (handleSelectWorkflow id a)
      else a
  | ClickDelete id =>
      if decide (App.view a = ViewDashboard)
      then render (setWorkflows (handleDeleteWorkflow id) a)
      else a
  | ClickHome => render (setView ViewDashboard a)
  | ClickSettings => render (setView ViewSettings a)
  | ClickClose =>
      match App.mounted a with
      | Some _ => render (handleCloseWizard a)
      | None => a
      end
  | TypePrompt value =>
      match App.mounted a, activeWorkflow a with
      | Some s, Some workflow =>
          if decide (WizardState.step s = Describe)
          then commit (Ran.mk (setPromptText value s) [] [] None) a
          else a
      | _, _ => a
      end
  | ClickGeneratePlan reply =>
      match App.mounted a, activeWorkflow a with
      | Some s, Some workflow =>
          if decide (WizardState.step s = Describe)
          then
            if WizardState.loading s || negb (JS.truthy (JS.trim (WizardState.promptText s)))
            then a
            else render (commit (handleGeneratePlan workflow reply s) a)
          else a
      | _, _ => a
      end
  | ClickRefine =>
      match App.mounted a, activeWorkflow a with
      | Some s, Some workflow =>
          if decide (WizardState.step s = Review) then
            if bool_decide (is_Some (Workflow.plan workflow))
            then commit (Ran.mk (handleRefine s) [] [] None) a
            else a
          else a
      | _, _ => a
      end
  | ClickGenerateScript reply =>
      match App.mounted a, activeWorkflow a with
      | Some s, Some workflow =>
          if decide (WizardState.step s = Review) then
            if bool_decide (is_Some (Workflow.plan workflow)) then
              if WizardState.loading s then a
              else render (commit (handleGenerateScript workflow reply s) a)
            else a
          else a
      | _, _ => a
      end
  end.

(** A sequence of events, from the left. *)
Definition run (a : App.t) (events : list Event) : App.t := foldl dispatch a events.

(** The application at start-up, once the workflows saved in local storage
    are loaded, and at start-up with nothing saved. *)
Definition startup (saved : list Workflow.t) : App.t :=
  App.mk ViewDashboard None saved None [] [].

Definition initial : App.t := startup [].

(** The wizard is on the screen with state [s], on the workflow [w]. *)
Definition onScreen (a : App.t) (s : WizardState.t) (w : Workflow.t) : Prop :=
  App.view a = ViewWizard /\ App.mounted a = Some s /\ activeWorkflow a = Some w.





(** The events of the controls inside the wizard's steps: the input, the
    submit button, Refine Instructions and Generate Script. *)
Definition wizardEvent (e : Event) : bool :=
  match e with
  | TypePrompt _ | ClickGeneratePlan _ | ClickRefine | ClickGenerateScript _ => true
  | _ => false
  end.

(** Along [events] from [a], every UUID handed to a new workflow is one the
    store does not hold at that moment. *)
Fixpoint freshUUIDs (a : App.t) (events : list Event) : Prop :=
  match events with
  | [] => True
  | e :: events' =>
      match e with
      | ClickNewWorkflow uuid _ => uuid ∉ Workflow.id <$> App.workflows a
      | _ => True
      end
      /\ freshUUIDs (dispatch a e) events'
  end.

(** The turns of a list of rounds (utterance, question). *)
Definition turnsOf (rounds : list (string * string)) : list ChatMessage.t :=
  rounds ≫= fun r => [ChatMessage.mk user r.1; ChatMessage.mk model r.2].

(** The conversation of the wizard is made of whole rounds, each a
    non-blank utterance and a non-empty question; a pending question is
    shown in Describe only and is the question of the last round. *)
Definition conversationInRounds (s : WizardState.t) : Prop :=
  exists rounds,
    WizardState.conversationHistory s = turnsOf rounds
    /\ Forall (fun r => JS.trim r.1 <> "" /\ r.2 <> "") rounds
    /\ forall q,
         WizardState.clarificationQuestion s = Some q ->
         WizardState.step s = Describe /\ exists u, last rounds = Some (u, q).

(** *** The statements of the specification *)

(** The derived step as the specification tabulates it, on (plan present,
    script present). *)
Definition currentStep_spec (planPresent scriptPresent : bool) : WizardStep :=
  match planPresent, scriptPresent with
  | false, _ => Describe
  | true, false => Review
  | true, true => Deploy
  end.

(** The derived step as the wizard computes it, on (plan present, script
    present and not empty). *)
Definition currentStep_table (planPresent scriptNonEmpty : bool) : WizardStep :=
  match scriptNonEmpty, planPresent with
  | true, _ => Deploy
  | false, true => Review
  | false, false => Describe
  end.

(** The completion service's output is not JSON text, or is the JSON text
    [null]: parsing it or reading [isValid] off it throws. *)
Definition malformed (reply : AiResponse) : Prop :=
  exists text,
    reply = Responds text
    /\ (JSON_parse_value (JS.orElse text "{}") = None
        \/ JSON_parse_value (JS.orElse text "{}") = Some JSON.Null).


(** The typed decoder agrees with [JSON.parse] on the answer [reply]: what
    it decodes is what [JSON.parse] returns, and it fails where [JSON.parse]
    throws or returns null. *)
Definition typedAnswer (reply : AiResponse) : Prop :=
  forall text,
    reply = Responds text ->
    match JSON_parse (JS.orElse text "{}") with
    | Some result =>
        JSON_parse_value (JS.orElse text "{}") = Some (JSON_of_result result)
    | None =>
        JSON_parse_value (JS.orElse text "{}") = None
        \/ JSON_parse_value (JS.orElse text "{}") = Some JSON.Null
    end.

(** The completion service's output decodes to [result]. *)
Definition decodesTo (reply : AiResponse) (result : PlanGenerationResult.t) : Prop :=
  exists text, reply = Responds text /\ JSON_parse (JS.orElse text "{}") = Some result.

(** The code-generation call returns empty content. *)
Definition emptyContent (reply : AiResponse) : Prop :=
  exists text, reply = Responds text /\ JS.truthyOpt text = false.

(** [workflow] with the generated [code] stored on it. *)
Definition withScript (code : string) (workflow : Workflow.t) : Workflow.t :=
  Workflow.mk (Workflow.id workflow) (Workflow.name workflow)
    (Workflow.description workflow) (Workflow.prompt workflow)
    (Workflow.plan workflow) (Some code) Generated (Workflow.createdAt workflow).

(** The round [r] is a clarification round: the utterance passes the guard
    on the input and the answer decodes to a result that is not an accepted
    plan and carries the non-empty question of [r]. *)
Definition needsClarification (r : ClarificationRound.t) : Prop :=
  JS.trim (ClarificationRound.utterance r) <> ""
  /\ exists result,
       decodesTo (ClarificationRound.answer r) result
       /\ ~ (PlanGenerationResult.isValid result = true
             /\ is_Some (PlanGenerationResult.plan result))
       /\ PlanGenerationResult.question result = Some (ClarificationRound.question r)
       /\ ClarificationRound.question r <> "".

(** The answer decodes to the accepted [plan]. *)
Definition acceptedWith (reply : AiResponse) (plan : WorkflowPlan.t) : Prop :=
  exists result,
    decodesTo reply result
    /\ PlanGenerationResult.isValid result = true
    /\ PlanGenerationResult.plan result = Some plan.

(** The events of a session: the clarification rounds, then the accepting
    utterance with its answer. *)
Definition session (rounds : list ClarificationRound.t) (utterance : string)
    (reply : AiResponse) : list Event :=
  (rounds ≫= fun r =>
     [TypePrompt (ClarificationRound.utterance r);
      ClickGeneratePlan (ClarificationRound.answer r)])
  ++ [TypePrompt utterance; ClickGeneratePlan reply].

(** The user's utterances of a session, in order. *)
Definition userUtterances (rounds : list ClarificationRound.t) (utterance : string)
  : list string :=
  (ClarificationRound.utterance <$> rounds) ++ [utterance].

(** The texts of all turns of a session, in order: each utterance followed
    by the question it was answered with, then the accepting utterance. *)
Definition turnTexts (rounds : list ClarificationRound.t) (utterance : string)
  : list string :=
  (rounds ≫= fun r => [ClarificationRound.utterance r; ClarificationRound.question r])
  ++ [utterance].

(** The prompt stored on the active workflow. *)
Definition persistedPrompt (a : App.t) : option string :=
  Workflow.prompt <$> activeWorkflow a.

(** C1 as the specification states it. *)
Definition prompt_spec (a : App.t) (rounds : list ClarificationRound.t)
    (utterance : string) (reply : AiResponse) : Prop :=
  persistedPrompt (run a (session rounds utterance reply))
  = Some (JS.join "" (userUtterances rounds utterance)).




(** C6 as the specification states it. *)
Definition emptyInput_spec (workflow : Workflow.t) (reply : AiResponse)
    (s : WizardState.t) : Prop :=
  let r := handleGeneratePlan workflow reply s in
  Ran.sent r = []
  /\ WizardState.conversationHistory (Ran.state r) = WizardState.conversationHistory s
  /\ Ran.onUpdate r = []
  /\ is_Some (Ran.uncaught r).

(** C7 as the specification states it. *)
Definition synthesisFailure_spec (workflow : Workflow.t) (reply : AiResponse)
    (s : WizardState.t) : Prop :=
  let r := handleGenerateScript workflow reply s in
  is_Some (Ran.uncaught r)
  /\ WizardState.step (Ran.state r) = Review
  /\ Ran.onUpdate r = [].


(** ** Properties *)

(** *** Strings *)

Lemma trimStart_whitespaceOnly (s : string) :
  JS.whitespaceOnly s = true -> JS.trimStart s = "".
Proof.
  induction s as [|c s IH]; simpl; [done|].
  destruct (JS.isWhiteSpace c); simpl; [exact IH | done].
Qed.

Lemma whitespaceOnly_trimEnd (s : string) :
  JS.trimEnd s = "" -> JS.whitespaceOnly s = true.
Proof.
  induction s as [|c s IH]; simpl; [done|].
  destruct (JS.trimEnd s); [|done].
  destruct (JS.isWhiteSpace c); simpl; [intros _; by apply IH | done].
Qed.

Lemma whitespaceOnly_trimStart (s : string) :
  JS.whitespaceOnly (JS.trimStart s) = true -> JS.whitespaceOnly s = true.
Proof.
  induction s as [|c s IH]; simpl; [done|].
  destruct (JS.isWhiteSpace c) eqn:Hc; simpl; [exact IH|].
  by rewrite Hc.
Qed.

(** [s.trim()] is empty exactly when [s] is empty or white space only. *)
Lemma trim_empty_iff (s : string) :
  JS.trim s = "" <-> JS.whitespaceOnly s = true.
Proof.
  unfold JS.trim. split.
  - intros H. by apply whitespaceOnly_trimStart, whitespaceOnly_trimEnd.
  - intros H. by rewrite (trimStart_whitespaceOnly s H).
Qed.

Lemma truthy_true_iff (s : string) : JS.truthy s = true <-> s <> "".
Proof. by destruct s. Qed.

(** *** The wizard's handlers *)

(** Past the guard on the input, [handleGeneratePlan] sends one request and
    then goes by how the promise settles. *)
Lemma handleGeneratePlan_question workflow reply s result question :
  JS.trim (WizardState.promptText s) <> "" ->
  (generateAutomationPlan reply (WizardState.promptText s)
     (historyLine <$> WizardState.conversationHistory s)).2 = Fulfilled result ->
  ~ (PlanGenerationResult.isValid result = true
     /\ is_Some (PlanGenerationResult.plan result)) ->
  PlanGenerationResult.question result = Some question ->
  question <> "" ->
  handleGeneratePlan workflow reply s =
    Ran.mk
      (WizardState.mk (WizardState.step s) false ""
         (WizardState.conversationHistory s
            ++ [ChatMessage.mk user (WizardState.promptText s);
                ChatMessage.mk model question])
         (Some question))
      []
      [(generateAutomationPlan reply (WizardState.promptText s)
          (historyLine <$> WizardState.conversationHistory s)).1]
      None.
Proof.
  intros Hne Hset Hnot Hq Hqne. unfold handleGeneratePlan.
  apply truthy_true_iff in Hne. rewrite Hne. simpl negb. cbv iota.
  destruct (generateAutomationPlan _ _ _) as [request settled].
  simpl in Hset. subst settled. rewrite Hq.
  apply truthy_true_iff in Hqne. rewrite Hqne.
  destruct (PlanGenerationResult.isValid result) eqn:Hv;
    destruct (PlanGenerationResult.plan result) eqn:Hp; try done.
  exfalso. apply Hnot. split; [done | by eexists].
Qed.

Lemma handleGeneratePlan_accepted workflow reply s result plan :
  JS.trim (WizardState.promptText s) <> "" ->
  (generateAutomationPlan reply (WizardState.promptText s)
     (historyLine <$> WizardState.conversationHistory s)).2 = Fulfilled result ->
  PlanGenerationResult.isValid result = true ->
  PlanGenerationResult.plan result = Some plan ->
  handleGeneratePlan workflow reply s =
    Ran.mk
      (WizardState.mk Review false (WizardState.promptText s)
         (WizardState.conversationHistory s) None)
      [Workflow.mk (Workflow.id workflow) (WorkflowPlan.name plan)
         (WorkflowPlan.description plan)
         (JS.join " "
            (ChatMessage.text <$>
               (WizardState.conversationHistory s
                  ++ [ChatMessage.mk user (WizardState.promptText s)])))
         (Some plan) (Workflow.script workflow) Draft (Workflow.createdAt workflow)]
      [(generateAutomationPlan reply (WizardState.promptText s)
          (historyLine <$> WizardState.conversationHistory s)).1]
      None.
Proof.
  intros Hne Hset Hv Hp. unfold handleGeneratePlan.
  apply truthy_true_iff in Hne. rewrite Hne. simpl negb. cbv iota.
  destruct (generateAutomationPlan _ _ _) as [request settled].
  simpl in Hset. subst settled. by rewrite Hv, Hp.
Qed.

Lemma handleGeneratePlan_neither workflow reply s result :
  JS.trim (WizardState.promptText s) <> "" ->
  (generateAutomationPlan reply (WizardState.promptText s)
     (historyLine <$> WizardState.conversationHistory s)).2 = Fulfilled result ->
  ~ (PlanGenerationResult.isValid result = true
     /\ is_Some (PlanGenerationResult.plan result)) ->
  JS.truthyOpt (PlanGenerationResult.question result) = false ->
  handleGeneratePlan workflow reply s =
    Ran.mk
      (WizardState.mk (WizardState.step s) false (WizardState.promptText s)
         (WizardState.conversationHistory s) None)
      []
      [(generateAutomationPlan reply (WizardState.promptText s)
          (historyLine <$> WizardState.conversationHistory s)).1]
      None.
Proof.
  intros Hne Hset Hnot Hq. unfold handleGeneratePlan.
  apply truthy_true_iff in Hne. rewrite Hne. simpl negb. cbv iota.
  destruct (generateAutomationPlan _ _ _) as [request settled].
  simpl in Hset. subst settled.
  destruct (PlanGenerationResult.isValid result) eqn:Hv;
    destruct (PlanGenerationResult.plan result) eqn:Hp;
    try (exfalso; apply Hnot; split; [done | by eexists]);
    destruct (PlanGenerationResult.question result) as [q|]; simpl in Hq;
    try rewrite Hq; done.
Qed.

(** *** The derived step *)

(** C2 (as amended).  The step derived from a workflow, on which the wizard
    opens, is a function of the pair (plan present, script present and not
    empty) alone: a non-empty script yields Deploy whether or not there is a
    plan; otherwise a plan yields Review; otherwise Describe. *)
Theorem initialStep_table (workflow : Workflow.t) :
  initialStep workflow =
    currentStep_table
      (bool_decide (is_Some (Workflow.plan workflow)))
      (JS.truthyOpt (Workflow.script workflow)).
Proof.
  unfold initialStep, currentStep_table.
  destruct (JS.truthyOpt (Workflow.script workflow)); [done|].
  by destruct (bool_decide (is_Some (Workflow.plan workflow))).
Qed.

(** *** The store *)

Lemma handleDeleteWorkflow_cons id w prev :
  handleDeleteWorkflow id (w :: prev) =
    if decide (Workflow.id w <> id) then w :: handleDeleteWorkflow id prev
    else handleDeleteWorkflow id prev.
Proof. unfold handleDeleteWorkflow. by rewrite filter_cons. Qed.

Lemma handleDeleteWorkflow_sublist id prev :
  sublist (handleDeleteWorkflow id prev) prev.
Proof. apply sublist_filter. Qed.

Lemma handleDeleteWorkflow_Forall id prev :
  Forall (fun w => Workflow.id w <> id) (handleDeleteWorkflow id prev).
Proof. apply Forall_forall. intros w Hw. by apply list_elem_of_filter in Hw as [? _]. Qed.

Lemma handleDeleteWorkflow_greatest id prev kept :
  sublist kept prev ->
  Forall (fun w => Workflow.id w <> id) kept ->
  sublist kept (handleDeleteWorkflow id prev).
Proof.
  intros Hsub. induction Hsub as [|w l1 l2 Hsub IH|w l1 l2 Hsub IH]; intros Hall.
  - apply sublist_nil_l.
  - rewrite handleDeleteWorkflow_cons.
    apply Forall_cons in Hall as [Hw Hall].
    destruct (decide (Workflow.id w <> id)); [|done].
    apply sublist_skip. by apply IH.
  - rewrite handleDeleteWorkflow_cons.
    destruct (decide (Workflow.id w <> id)); [apply sublist_cons|]; by apply IH.
Qed.

(** C10.  [handleUpdateWorkflow] keeps the length of the list and, at every
    index, puts the updated workflow where the entry has its id and leaves
    the entry as it is otherwise.  [handleDeleteWorkflow] yields the
    greatest sub-list (entries in their original order) without an entry of
    the given id: no entry of that id stays and no other entry goes. *)
Theorem store_update_delete (updated : Workflow.t) (id : string)
    (prev : list Workflow.t) :
  (length (handleUpdateWorkflow updated prev) = length prev
   /\ forall (i : nat) (w : Workflow.t),
        prev !! i = Some w ->
        handleUpdateWorkflow updated prev !! i =
          Some (if decide (Workflow.id w = Workflow.id updated) then updated else w))
  /\ (sublist (handleDeleteWorkflow id prev) prev
      /\ Forall (fun w => Workflow.id w <> id) (handleDeleteWorkflow id prev)
      /\ forall kept : list Workflow.t,
           sublist kept prev ->
           Forall (fun w => Workflow.id w <> id) kept ->
           sublist kept (handleDeleteWorkflow id prev)).
Proof.
  split; [split|split; [|split]].
  - unfold handleUpdateWorkflow. apply length_fmap.
  - intros i w Hi. unfold handleUpdateWorkflow.
    by rewrite list_lookup_fmap, Hi.
  - apply handleDeleteWorkflow_sublist.
  - apply handleDeleteWorkflow_Forall.
  - apply handleDeleteWorkflow_greatest.
Qed.

(** *** Submitting an utterance *)

Lemma decodesTo_settles reply result p h :
  decodesTo reply result ->
  (generateAutomationPlan reply p h).2 = Fulfilled result.
Proof. intros (text & -> & Hp). simpl. by rewrite Hp. Qed.

(** C5.  An utterance that is not empty after trimming is submitted in
    Describe, and the completion service's output decodes to a result with
    [isValid] false and a non-empty question.  Then the wizard is still in
    Describe, the conversation has gained the utterance as a user turn and
    the question as an assistant turn, in this order and nothing else, the
    pending question is that question, the input is empty, no workflow was
    handed to [onUpdate], and no error was raised. *)
Theorem clarification_round (workflow : Workflow.t) (reply : AiResponse)
    (s : WizardState.t) (result : PlanGenerationResult.t) (question : string) :
  JS.trim (WizardState.promptText s) <> "" ->
  WizardState.step s = Describe ->
  decodesTo reply result ->
  PlanGenerationResult.isValid result = false ->
  PlanGenerationResult.question result = Some question ->
  question <> "" ->
  let r := handleGeneratePlan workflow reply s in
  WizardState.step (Ran.state r) = Describe
  /\ WizardState.conversationHistory (Ran.state r) =
       WizardState.conversationHistory s
         ++ [ChatMessage.mk user (WizardState.promptText s);
             ChatMessage.mk model question]
  /\ WizardState.clarificationQuestion (Ran.state r) = Some question
  /\ WizardState.promptText (Ran.state r) = ""
  /\ Ran.onUpdate r = []
  /\ Ran.uncaught r = None.
Proof.
  intros Hne Hstep Hdec Hv Hq Hqne r. subst r.
  rewrite (handleGeneratePlan_question workflow reply s result question);
    [simpl; by rewrite Hstep | done | by apply decodesTo_settles | | done | done].
  intros [Hv' _]. congruence.
Qed.

(** C6 (as amended).  Submitting an utterance that is empty or white space
    only sends nothing to the completion service, leaves the component
    state (the conversation with it) as it was, hands no workflow to
    [onUpdate], and returns without an error. *)
Theorem blank_utterance_ignored (workflow : Workflow.t) (reply : AiResponse)
    (s : WizardState.t) :
  JS.whitespaceOnly (WizardState.promptText s) = true ->
  let r := handleGeneratePlan workflow reply s in
  Ran.sent r = [] /\ Ran.state r = s /\ Ran.onUpdate r = [] /\ Ran.uncaught r = None.
Proof.
  intros Hws r. subst r. unfold handleGeneratePlan.
  apply trim_empty_iff in Hws. by rewrite Hws.
Qed.

(** C9.  The decoded result is neither an accepted plan ([isValid] true
    together with a plan) nor a question.  Then no workflow is handed to
    [onUpdate], the conversation, the input and the step are as before, no
    error is raised, and the pending question is cleared. *)
Theorem unrecognized_result_ignored (workflow : Workflow.t) (reply : AiResponse)
    (s : WizardState.t) (result : PlanGenerationResult.t) :
  JS.trim (WizardState.promptText s) <> "" ->
  decodesTo reply result ->
  ~ (PlanGenerationResult.isValid result = true
     /\ is_Some (PlanGenerationResult.plan result)) ->
  PlanGenerationResult.question result = None ->
  let r := handleGeneratePlan workflow reply s in
  Ran.onUpdate r = []
  /\ WizardState.conversationHistory (Ran.state r) = WizardState.conversationHistory s
  /\ WizardState.promptText (Ran.state r) = WizardState.promptText s
  /\ WizardState.step (Ran.state r) = WizardState.step s
  /\ WizardState.loading (Ran.state r) = false
  /\ Ran.uncaught r = None
  /\ WizardState.clarificationQuestion (Ran.state r) = None.
Proof.
  intros Hne Hdec Hnot Hq r. subst r.
  rewrite (handleGeneratePlan_neither workflow reply s result);
    [done | done | by apply decodesTo_settles | done | by rewrite Hq].
Qed.

(** *** Answers that cannot be decoded *)

Lemma malformed_settles reply p h :
  malformed reply ->
  (generateAutomationPlan_untyped reply p h).2
  = Rejected "AI generated an invalid format.".
Proof. intros (text & -> & [Hp|Hp]); simpl; by rewrite Hp. Qed.

Lemma parsed_settles text v p h :
  JSON_parse_value (JS.orElse text "{}") = Some v -> v <> JSON.Null ->
  (generateAutomationPlan_untyped (Responds text) p h).2
  = Fulfilled (UntypedResult.mk (JSON.get "isValid" v) (JSON.get "question" v)
                 (JSON.get "plan" v)).
Proof. intros Hp Hv. simpl. rewrite Hp. by destruct v. Qed.

Lemma generateAutomationPlan_untyped_request reply p h :
  (generateAutomationPlan_untyped reply p h).1 = (generateAutomationPlan reply p h).1.
Proof. done. Qed.


Lemma get_JSON_of_result (result : PlanGenerationResult.t) :
  JSON.get "isValid" (JSON_of_result result)
  = Some (JSON.Bool (PlanGenerationResult.isValid result))
  /\ JSON.get "question" (JSON_of_result result)
     = JSON.Str <$> PlanGenerationResult.question result
  /\ JSON.get "plan" (JSON_of_result result)
     = JSON_of_plan <$> PlanGenerationResult.plan result.
Proof. by destruct result as [isValid [q|] [plan|]]. Qed.

Lemma get_JSON_of_plan (plan : WorkflowPlan.t) :
  JSON.get "name" (JSON_of_plan plan) = Some (JSON.Str (WorkflowPlan.name plan))
  /\ JSON.get "description" (JSON_of_plan plan)
     = Some (JSON.Str (WorkflowPlan.description plan)).
Proof. done. Qed.

(** On an answer of the declared types, the handler at run time does what
    the typed handler does. *)
Lemma handleGeneratePlan_untyped_typed workflow reply s :
  typedAnswer reply ->
  handleGeneratePlan_untyped workflow reply s
  = untypedRan (handleGeneratePlan workflow reply s).
Proof.
  intros Htyped. unfold handleGeneratePlan_untyped, handleGeneratePlan.
  destruct (negb (JS.truthy (JS.trim (WizardState.promptText s)))); [done|].
  destruct reply as [err|text]; [done|].
  specialize (Htyped text eq_refl).
  destruct (JSON_parse (JS.orElse text "{}")) as [result|] eqn:Hparse.
  - pose proof (parsed_settles text (JSON_of_result result) (WizardState.promptText s)
                  (historyLine <$> WizardState.conversationHistory s) Htyped) as Hu.
    pose proof (decodesTo_settles (Responds text) result (WizardState.promptText s)
                  (historyLine <$> WizardState.conversationHistory s)) as Ht.
    rewrite (surjective_pairing (generateAutomationPlan_untyped _ _ _)), Hu by done.
    rewrite (surjective_pairing (generateAutomationPlan _ _ _)), Ht by (by exists text).
    destruct (get_JSON_of_result result) as (-> & -> & ->).
    cbn [UntypedResult.isValid UntypedResult.question UntypedResult.plan].
    destruct result as [isValid question plan].
    cbn [PlanGenerationResult.isValid PlanGenerationResult.question
         PlanGenerationResult.plan].
    destruct plan as [plan|]; cbn [fmap option_fmap option_map].
    + destruct (get_JSON_of_plan plan) as [Hname Hdescription].
      destruct isValid; cbn [JSON.truthyOpt JSON.truthy andb].
      * unfold untypedRan. cbn [JSON_of_plan JSON.truthy].
        by rewrite Hname, Hdescription.
      * destruct question as [q|]; [|done]. cbn [fmap option_fmap option_map JSON.truthy].
        destruct (JS.truthy q); [|done].
        unfold untypedRan, untypedState. cbn. by rewrite fmap_app.
    + destruct question as [q|]; [|by destruct isValid].
      cbn [fmap option_fmap option_map JSON.truthy].
      destruct (JS.truthy q); [|by destruct isValid].
      unfold untypedRan, untypedState. destruct isValid; cbn; by rewrite fmap_app.
  - unfold generateAutomationPlan_untyped, generateAutomationPlan. rewrite Hparse.
    by destruct Htyped as [-> | ->].
Qed.

(** A decoded result has the expected shape. *)
Lemma JSON_of_result_shape (result : PlanGenerationResult.t) :
  hasExpectedShape (JSON_of_result result) = true.
Proof.
  destruct result as [isValid question [[name description steps]|]];
    destruct question; try done.
  all: unfold hasExpectedShape, JSON_of_result; cbn;
    induction steps as [|step steps IH]; [done|]; cbn; exact IH.
Qed.


(** *** Requesting synthesis *)

Lemma generateScript_emptyContent reply plan prompt :
  emptyContent reply -> (generateScript reply plan prompt).2 = Fulfilled "".
Proof.
  intros (text & -> & Ht). simpl.
  assert (JS.orElse text "" = "") as ->; [|done].
  destruct text as [t|]; [|done]. simpl in *. by rewrite Ht.
Qed.

(** C7 (as amended).  Synthesis is requested in Review on a workflow with a
    plan.  When the code-generation call fails, the failure is raised, the
    wizard is still in Review and no workflow is handed to [onUpdate]: no
    script is stored and the status is as it was.  When the call returns
    empty content (a response without text), nothing is raised: the
    workflow handed to [onUpdate] has the empty string as its script and
    status Generated, and the wizard is in Deploy. *)
Theorem synthesis_failure_and_empty (workflow : Workflow.t) (plan : WorkflowPlan.t)
    (err : string) (text : option string) (s : WizardState.t) :
  Workflow.plan workflow = Some plan ->
  WizardState.step s = Review ->
  JS.truthyOpt text = false ->
  (let r := handleGenerateScript workflow (Rejects err) s in
   Ran.uncaught r = Some err
   /\ WizardState.step (Ran.state r) = Review
   /\ Ran.onUpdate r = [])
  /\ (let r := handleGenerateScript workflow (Responds text) s in
      Ran.uncaught r = None
      /\ WizardState.step (Ran.state r) = Deploy
      /\ Ran.onUpdate r = [withScript "" workflow]).
Proof.
  intros Hplan Hstep Htext. unfold handleGenerateScript. rewrite Hplan.
  split.
  - simpl. by rewrite Hstep.
  - pose proof (generateScript_emptyContent (Responds text) plan
                  (Workflow.prompt workflow)) as Hset.
    destruct (generateScript _ _ _) as [request settled]. simpl in Hset.
    rewrite Hset by (by exists text).
    simpl. unfold withScript. by rewrite Hplan.
Qed.

(** *** The application: the wizard on the screen *)

Lemma find_hasId (i : string) (l : list Workflow.t) (w : Workflow.t) :
  List.find (hasId i) l = Some w -> Workflow.id w = i /\ w ∈ l.
Proof.
  intros H. apply List.find_some in H as [Hin Hid].
  split; [by apply bool_decide_eq_true in Hid | by apply list_elem_of_In].
Qed.

Lemma find_hasId_fmap (f : Workflow.t -> Workflow.t) (i : string)
    (l : list Workflow.t) :
  (forall w, Workflow.id (f w) = Workflow.id w) ->
  List.find (hasId i) (f <$> l) = f <$> List.find (hasId i) l.
Proof.
  intros Hf. induction l as [|w l IH]; [done|].
  simpl. unfold hasId at 1 3. rewrite Hf.
  by destruct (bool_decide (Workflow.id w = i)).
Qed.

Lemma find_hasId_update (updated : Workflow.t) (i : string) (l : list Workflow.t) :
  List.find (hasId i) (handleUpdateWorkflow updated l) =
    (fun w => if decide (Workflow.id w = Workflow.id updated) then updated else w)
      <$> List.find (hasId i) l.
Proof.
  unfold handleUpdateWorkflow. apply find_hasId_fmap.
  intros w. by destruct (decide (Workflow.id w = Workflow.id updated)).
Qed.


(** What a handler of the wizard hands to [onUpdate]. *)
Lemma handleGeneratePlan_onUpdate workflow reply s :
  let r := handleGeneratePlan workflow reply s in
  Ran.onUpdate r = []
  \/ exists updated,
       Ran.onUpdate r = [updated]
       /\ Workflow.id updated = Workflow.id workflow
       /\ Workflow.status updated = Draft
       /\ Workflow.script updated = Workflow.script workflow.
Proof.
  intros r. subst r. unfold handleGeneratePlan.
  destruct (negb _); [by left|].
  destruct (generateAutomationPlan _ _ _) as [request [result|err]]; [|by left].
  destruct (PlanGenerationResult.isValid result), (PlanGenerationResult.plan result),
    (PlanGenerationResult.question result) as [q|];
    try destruct (JS.truthy q); try (by left); right; by eexists.
Qed.

Lemma handleGenerateScript_onUpdate workflow reply s :
  let r := handleGenerateScript workflow reply s in
  (Ran.onUpdate r = [] /\ WizardState.step (Ran.state r) = WizardState.step s)
  \/ exists plan code,
       Workflow.plan workflow = Some plan
       /\ (generateScript reply plan (Workflow.prompt workflow)).2 = Fulfilled code
       /\ Ran.onUpdate r = [withScript code workflow]
       /\ WizardState.step (Ran.state r) = Deploy.
Proof.
  intros r. subst r. unfold handleGenerateScript.
  destruct (Workflow.plan workflow) as [plan|] eqn:Hplan; [|by left].
  destruct (generateScript _ _ _) as [request [code|err]] eqn:Hgen; [|by left].
  right. exists plan, code. rewrite Hgen. unfold withScript. by rewrite Hplan.
Qed.

(** [render] touches the wizard only. *)
Lemma render_activeWorkflow a : activeWorkflow (render a) = activeWorkflow a.
Proof. done. Qed.


Lemma render_onScreen a s w :
  onScreen a s w -> render a = a.
Proof.
  intros (Hv & Hm & Hw). unfold render. rewrite Hw, Hm.
  destruct (decide (App.view a = ViewWizard)); [|done].
  destruct a; simpl in *. by subst.
Qed.

(** [commit] of a run that handed nothing, or one workflow of the active
    id, to [onUpdate]. *)
Lemma commit_nothing r a s w :
  onScreen a s w ->
  Ran.onUpdate r = [] ->
  onScreen (commit r a) (Ran.state r) w
  /\ App.workflows (commit r a) = App.workflows a.
Proof.
  intros (Hv & Hm & Hw) Hr. unfold onScreen, commit, activeWorkflow in *.
  rewrite Hr. simpl. done.
Qed.

Lemma commit_updated r a s w updated :
  onScreen a s w ->
  Ran.onUpdate r = [updated] ->
  Workflow.id updated = Workflow.id w ->
  onScreen (commit r a) (Ran.state r) updated
  /\ App.workflows (commit r a) = handleUpdateWorkflow updated (App.workflows a).
Proof.
  intros (Hv & Hm & Hw) Hr Hid. unfold onScreen, commit, activeWorkflow in *.
  rewrite Hr. simpl. split; [|done]. split; [done|]. split; [done|].
  destruct (App.activeWorkflowId a) as [i|]; [|done].
  rewrite find_hasId_update, Hw. simpl.
  rewrite decide_True; [done|]. by rewrite Hid.
Qed.

(** *** The step agrees with the script *)











(** *** A session of clarification rounds *)

Lemma dispatch_TypePrompt a s w value :
  onScreen a s w -> WizardState.step s = Describe ->
  dispatch a (TypePrompt value) = commit (Ran.mk (setPromptText value s) [] [] None) a.
Proof. intros (_ & Hm & Hw) Hstep. simpl. rewrite Hm, Hw. by rewrite decide_True. Qed.

Lemma dispatch_ClickGeneratePlan a s w reply :
  onScreen a s w -> WizardState.step s = Describe ->
  WizardState.loading s = false ->
  JS.trim (WizardState.promptText s) <> "" ->
  dispatch a (ClickGeneratePlan reply) = render (commit (handleGeneratePlan w reply s) a).
Proof.
  intros (_ & Hm & Hw) Hstep Hload Hne. simpl. rewrite Hm, Hw, Hload.
  rewrite decide_True by done. apply truthy_true_iff in Hne. by rewrite Hne.
Qed.

(** Typing an utterance and submitting it, when the answer asks for a
    clarification. *)
Lemma submit_clarified a s w r :
  onScreen a s w -> WizardState.step s = Describe ->
  WizardState.loading s = false ->
  needsClarification r ->
  onScreen
    (run a [TypePrompt (ClarificationRound.utterance r);
            ClickGeneratePlan (ClarificationRound.answer r)])
    (WizardState.mk Describe false ""
       (WizardState.conversationHistory s
          ++ [ChatMessage.mk user (ClarificationRound.utterance r);
              ChatMessage.mk model (ClarificationRound.question r)])
       (Some (ClarificationRound.question r)))
    w.
Proof.
  intros Hon Hstep Hload (Hne & result & Hdec & Hnot & Hq & Hqne).
  unfold run. cbn [foldl].
  rewrite (dispatch_TypePrompt a s w) by done.
  destruct (commit_nothing
              (Ran.mk (setPromptText (ClarificationRound.utterance r) s) [] [] None)
              a s w Hon eq_refl) as [Hon1 _].
  simpl in Hon1.
  rewrite (dispatch_ClickGeneratePlan _ _ w _ Hon1) by done.
  pose proof (handleGeneratePlan_question w (ClarificationRound.answer r)
                (setPromptText (ClarificationRound.utterance r) s)
                result (ClarificationRound.question r)) as Hrun.
  cbn [setPromptText WizardState.promptText WizardState.conversationHistory
       WizardState.step] in Hrun.
  rewrite Hstep in Hrun.
  rewrite Hrun; [|done|by apply decodesTo_settles|done|done|done].
  match goal with |- onScreen (render (commit ?r ?a1)) _ _ =>
    destruct (commit_nothing r a1 _ w Hon1 eq_refl) as [Hon2 _] end.
  by rewrite (render_onScreen _ _ _ Hon2).
Qed.

(** Typing an utterance and submitting it, when the answer is an accepted
    plan. *)
Lemma submit_accepted a s w utterance reply plan :
  onScreen a s w -> WizardState.step s = Describe ->
  WizardState.loading s = false ->
  JS.trim utterance <> "" ->
  acceptedWith reply plan ->
  persistedPrompt (run a [TypePrompt utterance; ClickGeneratePlan reply])
  = Some (JS.join " "
            (ChatMessage.text <$>
               (WizardState.conversationHistory s ++ [ChatMessage.mk user utterance]))).
Proof.
  intros Hon Hstep Hload Hne (result & Hdec & Hv & Hp).
  unfold run. cbn [foldl].
  rewrite (dispatch_TypePrompt a s w) by done.
  destruct (commit_nothing (Ran.mk (setPromptText utterance s) [] [] None)
              a s w Hon eq_refl) as [Hon1 _].
  simpl in Hon1.
  rewrite (dispatch_ClickGeneratePlan _ _ w _ Hon1) by done.
  pose proof (handleGeneratePlan_accepted w reply (setPromptText utterance s)
                result plan) as Hrun.
  cbn [setPromptText WizardState.promptText WizardState.conversationHistory
       WizardState.step] in Hrun.
  rewrite Hrun; [|done|by apply decodesTo_settles|done|done].
  match goal with |- persistedPrompt (render (commit ?r ?a1)) = _ =>
    destruct (commit_updated r a1 _ w _ Hon1 eq_refl eq_refl) as [(_ & _ & Hw2) _] end.
  unfold persistedPrompt. rewrite render_activeWorkflow, Hw2. done.
Qed.

Lemma run_app a events events' :
  run a (events ++ events') = run (run a events) events'.
Proof. unfold run. apply foldl_app. Qed.

Lemma rounds_clarified rounds : forall a s w,
  onScreen a s w -> WizardState.step s = Describe ->
  WizardState.loading s = false ->
  Forall needsClarification rounds ->
  exists s',
    onScreen
      (run a (rounds ≫= fun r =>
                [TypePrompt (ClarificationRound.utterance r);
                 ClickGeneratePlan (ClarificationRound.answer r)]))
      s' w
    /\ WizardState.step s' = Describe
    /\ WizardState.loading s' = false
    /\ ChatMessage.text <$> WizardState.conversationHistory s' =
         (ChatMessage.text <$> WizardState.conversationHistory s)
           ++ (rounds ≫= fun r =>
                 [ClarificationRound.utterance r; ClarificationRound.question r]).
Proof.
  induction rounds as [|r rounds IH]; intros a s w Hon Hstep Hload Hall.
  - exists s. simpl. by rewrite app_nil_r.
  - apply Forall_cons in Hall as [Hr Hall].
    pose proof (submit_clarified a s w r Hon Hstep Hload Hr) as Hon1.
    destruct (IH _ _ w Hon1 eq_refl eq_refl Hall) as (s' & Hon' & Hstep' & Hload' & Hh).
    exists s'. rewrite bind_cons, run_app. split; [done|]. split; [done|].
    split; [done|]. rewrite Hh. simpl.
    rewrite fmap_app. simpl. by rewrite <- app_assoc.
Qed.

(** C1 (as amended).  The wizard shows Describe with an empty conversation.
    After any number of clarification rounds and one accepted utterance, the
    prompt stored on the workflow is the texts of all turns in order, the
    user's utterances and the assistant's questions alike, then the
    accepting utterance, joined by single spaces. *)
Theorem prompt_flattens_conversation (a : App.t) (s : WizardState.t)
    (w : Workflow.t) (rounds : list ClarificationRound.t) (utterance : string)
    (reply : AiResponse) (plan : WorkflowPlan.t) :
  App.view a = ViewWizard ->
  App.mounted a = Some s ->
  activeWorkflow a = Some w ->
  WizardState.step s = Describe ->
  WizardState.loading s = false ->
  WizardState.conversationHistory s = [] ->
  Forall needsClarification rounds ->
  JS.trim utterance <> "" ->
  acceptedWith reply plan ->
  persistedPrompt (run a (session rounds utterance reply))
  = Some (JS.join " " (turnTexts rounds utterance)).
Proof.
  intros Hv Hm Hw Hstep Hload Hempty Hall Hne Hacc.
  assert (onScreen a s w) as Hon by done.
  destruct (rounds_clarified rounds a s w Hon Hstep Hload Hall)
    as (s' & Hon' & Hstep' & Hload' & Hh).
  unfold session. rewrite run_app.
  rewrite (submit_accepted _ s' w utterance reply plan) by done.
  rewrite fmap_app, Hh, Hempty. done.
Qed.

(** *** Status and script in the store *)






(** ** Further properties *)

(** *** The generated script *)

Lemma app_String c (s t : string) : String c s +:+ t = String c (s +:+ t).
Proof. done. Qed.

Lemma app_empty_r (s : string) : s +:+ "" = s.
Proof. induction s as [|c s IH]; [done|]. by rewrite app_String, IH. Qed.

Lemma startsWith_empty_r (pat : string) :
  JS.startsWith pat "" = true -> pat = "".
Proof. by destruct pat. Qed.

Lemma startsWith_trimEnd (s : string) : forall pat,
  JS.startsWith pat (JS.trimEnd s) = true -> JS.startsWith pat s = true.
Proof.
  induction s as [|c s IH]; intros pat; [done|].
  destruct pat as [|a pat]; [done|]. simpl.
  destruct (JS.trimEnd s) as [|d t] eqn:Ht.
  - destruct (JS.isWhiteSpace c); [done|]. simpl.
    intros [Ha Hp]%andb_prop. rewrite Ha. simpl. by apply IH.
  - simpl. intros [Ha Hp]%andb_prop. rewrite Ha. simpl. by apply IH.
Qed.

Lemma includes_trimEnd (pat s : string) :
  JS.includes pat (JS.trimEnd s) = true -> JS.includes pat s = true.
Proof.
  induction s as [|c s IH]; [done|].
  intros H.
  assert (JS.startsWith pat (JS.trimEnd (String c s)) = true
          \/ JS.includes pat (JS.trimEnd s) = true) as [Hs|Hi].
  { revert H. simpl. destruct (JS.trimEnd s) as [|d t] eqn:Ht.
    - destruct (JS.isWhiteSpace c); simpl; [by right|].
      intros [?|?]%orb_prop; [left|right]; done.
    - simpl. intros [?|?]%orb_prop; [left|right]; done. }
  - apply startsWith_trimEnd in Hs. simpl. by rewrite Hs.
  - simpl. rewrite (IH Hi). apply orb_true_r.
Qed.

Lemma includes_trimStart (pat s : string) :
  JS.includes pat (JS.trimStart s) = true -> JS.includes pat s = true.
Proof.
  induction s as [|c s IH]; [done|]. simpl.
  destruct (JS.isWhiteSpace c); [|done].
  intros H. rewrite (IH H). apply orb_true_r.
Qed.

Lemma trimStart_cases (s : string) :
  JS.trimStart s = ""
  \/ exists c t, JS.trimStart s = String c t /\ JS.isWhiteSpace c = false.
Proof.
  induction s as [|c s IH]; [by left|]. simpl.
  destruct (JS.isWhiteSpace c) eqn:Hc; [done|]. right. by exists c, s.
Qed.

Lemma trimEnd_idempotent (s : string) : JS.trimEnd (JS.trimEnd s) = JS.trimEnd s.
Proof.
  induction s as [|c s IH]; [done|]. simpl.
  destruct (JS.trimEnd s) as [|d t] eqn:Ht.
  - destruct (JS.isWhiteSpace c) eqn:Hc; [done|]. simpl. by rewrite Hc.
  - simpl. simpl in IH. by rewrite IH.
Qed.

Lemma trimEnd_head (c : ascii) (s : string) :
  JS.isWhiteSpace c = false -> exists t, JS.trimEnd (String c s) = String c t.
Proof.
  intros Hc. simpl. destruct (JS.trimEnd s) as [|d t]; [|by eexists].
  rewrite Hc. by eexists.
Qed.

Lemma trim_idempotent (s : string) : JS.trim (JS.trim s) = JS.trim s.
Proof.
  unfold JS.trim.
  destruct (trimStart_cases s) as [->|(c & t & -> & Hc)]; [done|].
  destruct (trimEnd_head c t Hc) as [u Hu]. rewrite Hu. simpl JS.trimStart.
  rewrite Hc, <- Hu. apply trimEnd_idempotent.
Qed.

Lemma startsWith_cons a pat c s :
  JS.startsWith (String a pat) (String c s) = bool_decide (a = c) && JS.startsWith pat s.
Proof. done. Qed.

Lemma startsWith_empty_l s : JS.startsWith "" s = true.
Proof. by destruct s. Qed.

Lemma removeAll_go_cons pat c s :
  JS.removeAll_go pat 0 (String c s) =
    if JS.startsWith pat (String c s)
    then JS.removeAll_go pat (String.length pat - 1) s
    else String c (JS.removeAll_go pat 0 s).
Proof. done. Qed.

(** Dropping the fences leaves no backtick, and no two backticks, in front
    that were not there before. *)
Lemma removeAll_fence_head1 (s : string) :
  JS.startsWith "`" (JS.removeAll "```" s) = true -> JS.startsWith "`" s = true.
Proof.
  destruct s as [|c s]; [done|]. unfold JS.removeAll. rewrite removeAll_go_cons.
  destruct (JS.startsWith "```" (String c s)) eqn:H3.
  - intros _. rewrite startsWith_cons in H3. apply andb_prop in H3 as [Hc _].
    by rewrite startsWith_cons, Hc, startsWith_empty_l.
  - rewrite !startsWith_cons, !startsWith_empty_l. done.
Qed.

Lemma removeAll_fence_head2 (s : string) :
  JS.startsWith "``" (JS.removeAll "```" s) = true -> JS.startsWith "``" s = true.
Proof.
  destruct s as [|c s]; [done|]. unfold JS.removeAll. rewrite removeAll_go_cons.
  destruct (JS.startsWith "```" (String c s)) eqn:H3.
  - intros _. rewrite startsWith_cons in H3. apply andb_prop in H3 as [Hc H2].
    rewrite startsWith_cons, Hc, andb_true_l.
    destruct s as [|d s]; [done|]. rewrite startsWith_cons in H2.
    apply andb_prop in H2 as [Hd _].
    by rewrite startsWith_cons, Hd, startsWith_empty_l.
  - rewrite !startsWith_cons. intros [Hc H1]%andb_prop. rewrite Hc.
    by apply removeAll_fence_head1.
Qed.

Lemma removeAll_go_fence_free (s : string) : forall k,
  JS.includes "```" (JS.removeAll_go "```" k s) = false.
Proof.
  induction s as [|c s IH]; intros k; [by destruct k|].
  destruct k as [|k]; [|apply IH].
  rewrite removeAll_go_cons.
  destruct (JS.startsWith "```" (String c s)) eqn:Hstart; [apply IH|].
  cbn [JS.includes]. rewrite (IH 0%nat), orb_false_r.
  destruct (JS.startsWith "```" (String c (JS.removeAll_go "```" 0 s))) eqn:Hout;
    [|done].
  exfalso. rewrite startsWith_cons in Hout, Hstart.
  apply andb_prop in Hout as [Hc Hout]. rewrite Hc in Hstart.
  apply (removeAll_fence_head2 s) in Hout. rewrite andb_true_l in Hstart. congruence.
Qed.

(** X1.  Whatever the completion service answers, the code that
    [generateScript] returns contains no fence of three backticks and has
    no white space at either end (trimming it again changes nothing). *)
Theorem generateScript_fence_free (reply : AiResponse) (plan : WorkflowPlan.t)
    (prompt code : string) :
  (generateScript reply plan prompt).2 = Fulfilled code ->
  JS.includes "```" code = false /\ JS.trim code = code.
Proof.
  destruct reply as [err|text]; [done|]. simpl. intros [= <-].
  split; [|apply trim_idempotent].
  destruct (JS.includes _ _) eqn:H; [|done].
  unfold JS.trim in H. apply includes_trimEnd, includes_trimStart in H.
  unfold JS.removeAll in H at 1. by rewrite removeAll_go_fence_free in H.
Qed.

Lemma removeAll_go_skip pat (x s : string) : forall k,
  String.length x = k ->
  JS.removeAll_go pat k (x +:+ s) = JS.removeAll_go pat 0 s.
Proof.
  induction x as [|c x IH]; intros k Hk; simpl in Hk; subst k; [done|].
  rewrite app_String. cbn [JS.removeAll_go]. by apply IH.
Qed.

Lemma startsWith_app_self (pat s : string) : JS.startsWith pat (pat +:+ s) = true.
Proof.
  induction pat as [|a pat IH]; [apply startsWith_empty_l|].
  by rewrite app_String, startsWith_cons, bool_decide_eq_true_2, IH.
Qed.

(** A match in front is dropped. *)
Lemma removeAll_go_match a pat (s : string) :
  JS.removeAll_go (String a pat) 0 (String a pat +:+ s)
  = JS.removeAll_go (String a pat) 0 s.
Proof.
  rewrite app_String, removeAll_go_cons.
  assert (JS.startsWith (String a pat) (String a (pat +:+ s)) = true) as ->.
  { rewrite <- app_String. apply startsWith_app_self. }
  apply removeAll_go_skip. simpl. lia.
Qed.

(** Text without a backtick in front of the rest is kept, when the pattern
    starts with a backtick. *)
Lemma removeAll_go_clean pat (x s : string) :
  noBacktick x = true ->
  JS.removeAll_go (String "`" pat) 0 (x +:+ s)
  = x +:+ JS.removeAll_go (String "`" pat) 0 s.
Proof.
  induction x as [|c x IH]; [done|]. simpl noBacktick.
  intros [Hc Hx]%andb_prop. apply negb_true_iff, bool_decide_eq_false in Hc.
  rewrite !app_String, removeAll_go_cons, startsWith_cons.
  rewrite bool_decide_eq_false_2 by congruence. simpl. by rewrite IH.
Qed.

Lemma removeAll_clean pat (x : string) :
  noBacktick x = true -> JS.removeAll (String "`" pat) x = x.
Proof.
  intros Hx. unfold JS.removeAll.
  rewrite <- (app_empty_r x) at 1. rewrite removeAll_go_clean by done.
  apply app_empty_r.
Qed.

(** X2.  Code that contains no backtick comes out of [generateScript]
    trimmed and otherwise as it is, whether the completion service returns
    it bare or between a javascript fence and a closing fence. *)
Theorem generateScript_unwraps (plan : WorkflowPlan.t) (prompt body : string) :
  noBacktick body = true ->
  (generateScript (Responds (Some body)) plan prompt).2 = Fulfilled (JS.trim body)
  /\ (generateScript (Responds (Some ("```javascript" +:+ body +:+ "```")))
        plan prompt).2
     = Fulfilled (JS.trim body).
Proof.
  intros Hbody. unfold generateScript. cbn [snd]. split; f_equal; f_equal.
  - assert (JS.orElse (Some body) "" = body) as -> by (by destruct body).
    rewrite (removeAll_clean "``javascript" body) by done.
    by rewrite (removeAll_clean "``" body).
  - change (JS.orElse (Some ("```javascript" +:+ body +:+ "```")) "")
      with ("```javascript" +:+ body +:+ "```").
    unfold JS.removeAll at 2. rewrite removeAll_go_match.
    rewrite removeAll_go_clean by done.
    change (JS.removeAll_go "```javascript" 0 "```") with "```".
    unfold JS.removeAll. rewrite removeAll_go_clean by done.
    change (JS.removeAll_go "```" 0 "```") with "".
    apply app_empty_r.
Qed.

(** *** The store, continued *)

Lemma handleUpdateWorkflow_cons updated w prev :
  handleUpdateWorkflow updated (w :: prev) =
    (if decide (Workflow.id w = Workflow.id updated) then updated else w)
      :: handleUpdateWorkflow updated prev.
Proof. done. Qed.

Lemma handleUpdateWorkflow_ids updated prev :
  Workflow.id <$> handleUpdateWorkflow updated prev = Workflow.id <$> prev.
Proof.
  induction prev as [|w prev IH]; [done|].
  rewrite handleUpdateWorkflow_cons, !fmap_cons, IH.
  by destruct (decide (Workflow.id w = Workflow.id updated)) as [->|].
Qed.

Lemma handleUpdateWorkflow_missing updated prev :
  Workflow.id updated ∉ Workflow.id <$> prev ->
  handleUpdateWorkflow updated prev = prev.
Proof.
  induction prev as [|w prev IH]; [done|].
  rewrite fmap_cons, not_elem_of_cons. intros [Hne Hnin].
  rewrite handleUpdateWorkflow_cons, IH by done.
  by rewrite decide_False.
Qed.

Lemma handleDeleteWorkflow_missing id prev :
  id ∉ Workflow.id <$> prev -> handleDeleteWorkflow id prev = prev.
Proof.
  induction prev as [|w prev IH]; [done|].
  rewrite fmap_cons, not_elem_of_cons. intros [Hne Hnin].
  rewrite handleDeleteWorkflow_cons, IH by done.
  by rewrite decide_True.
Qed.

(** X3.  [handleUpdateWorkflow] never changes which ids the store holds, nor
    their order or number; updating a workflow whose id is not in the store
    changes nothing (it is not added), and neither does deleting an id that
    is not in the store. *)
Theorem store_missing_id (updated : Workflow.t) (id : string)
    (prev : list Workflow.t) :
  Workflow.id <$> handleUpdateWorkflow updated prev = Workflow.id <$> prev
  /\ (Workflow.id updated ∉ Workflow.id <$> prev ->
      handleUpdateWorkflow updated prev = prev)
  /\ (id ∉ Workflow.id <$> prev -> handleDeleteWorkflow id prev = prev).
Proof.
  split; [apply handleUpdateWorkflow_ids|].
  split; [apply handleUpdateWorkflow_missing | apply handleDeleteWorkflow_missing].
Qed.

(** X4.  Two updates in a row: with the same id the later one wins, as if
    the earlier had not happened (so an update is idempotent); with
    different ids their order does not matter. *)
Theorem store_update_update (first second : Workflow.t) (prev : list Workflow.t) :
  (Workflow.id first = Workflow.id second ->
   handleUpdateWorkflow second (handleUpdateWorkflow first prev)
   = handleUpdateWorkflow second prev)
  /\ (Workflow.id first <> Workflow.id second ->
      handleUpdateWorkflow second (handleUpdateWorkflow first prev)
      = handleUpdateWorkflow first (handleUpdateWorkflow second prev)).
Proof.
  split; intros Hid; induction prev as [|w prev IH]; try done;
    rewrite !handleUpdateWorkflow_cons, IH; f_equal.
  - repeat case_decide; congruence.
  - repeat case_decide; congruence.
Qed.

(** X5.  Deleting composes: two deletes commute and a repeated delete does
    nothing more; deleting the id of a workflow just updated gives what
    deleting it before the update gives; deleting another id commutes with
    the update. *)
Theorem store_delete_compose (updated : Workflow.t) (id id' : string)
    (prev : list Workflow.t) :
  handleDeleteWorkflow id (handleDeleteWorkflow id' prev)
  = handleDeleteWorkflow id' (handleDeleteWorkflow id prev)
  /\ handleDeleteWorkflow id (handleDeleteWorkflow id prev)
     = handleDeleteWorkflow id prev
  /\ (Workflow.id updated = id ->
      handleDeleteWorkflow id (handleUpdateWorkflow updated prev)
      = handleDeleteWorkflow id prev)
  /\ (Workflow.id updated <> id ->
      handleDeleteWorkflow id (handleUpdateWorkflow updated prev)
      = handleUpdateWorkflow updated (handleDeleteWorkflow id prev)).
Proof.
  split; [|split; [|split]].
  - induction prev as [|w prev IH]; [done|].
    rewrite !handleDeleteWorkflow_cons.
    destruct (decide (Workflow.id w <> id')), (decide (Workflow.id w <> id));
      rewrite ?handleDeleteWorkflow_cons, ?decide_True, ?decide_False by done;
      by rewrite IH.
  - induction prev as [|w prev IH]; [done|].
    rewrite !handleDeleteWorkflow_cons.
    destruct (decide (Workflow.id w <> id));
      rewrite ?handleDeleteWorkflow_cons, ?decide_True by done; by rewrite IH.
  - intros Hid. induction prev as [|w prev IH]; [done|].
    rewrite handleUpdateWorkflow_cons, !handleDeleteWorkflow_cons, IH.
    destruct (decide (Workflow.id w = Workflow.id updated)) as [Hw|Hw].
    + rewrite !decide_False; [done|congruence|congruence].
    + done.
  - intros Hid. induction prev as [|w prev IH]; [done|].
    rewrite handleUpdateWorkflow_cons, !handleDeleteWorkflow_cons, IH.
    destruct (decide (Workflow.id w = Workflow.id updated)) as [Hw|Hw].
    + rewrite !decide_True by congruence.
      by rewrite handleUpdateWorkflow_cons, decide_True.
    + destruct (decide (Workflow.id w <> id)); [|done].
      by rewrite handleUpdateWorkflow_cons, decide_False.
Qed.

Lemma find_hasId_delete id prev :
  List.find (hasId id) (handleDeleteWorkflow id prev) = None.
Proof.
  induction prev as [|w prev IH]; [done|].
  rewrite handleDeleteWorkflow_cons.
  destruct (decide (Workflow.id w <> id)) as [Hne|]; [|done].
  simpl. unfold hasId at 1. by rewrite bool_decide_eq_false_2.
Qed.

Lemma find_hasId_is_Some id prev :
  is_Some (List.find (hasId id) prev) <-> id ∈ Workflow.id <$> prev.
Proof.
  induction prev as [|w prev IH]; simpl.
  - split; [by intros [? ?] | by intros ?%elem_of_nil].
  - unfold hasId at 1. rewrite elem_of_cons.
    destruct (bool_decide (Workflow.id w = id)) eqn:Hw.
    + apply bool_decide_eq_true in Hw. split; [by left | by eexists].
    + apply bool_decide_eq_false in Hw. rewrite IH.
      split; [by right | by intros [?|?]].
Qed.

(** X6.  Looking a workflow up by id, as the application does for the
    active workflow: after a delete of that id nothing is found; after an
    update the updated workflow is found under its id exactly when the id
    was in the store; a new workflow put in front is found under its id,
    whatever else is in the store; and a lookup finds something exactly
    when the id is in the store. *)
Theorem store_lookup (updated w : Workflow.t) (id : string)
    (prev : list Workflow.t) :
  List.find (hasId id) (handleDeleteWorkflow id prev) = None
  /\ List.find (hasId (Workflow.id updated)) (handleUpdateWorkflow updated prev)
     = (if bool_decide (Workflow.id updated ∈ Workflow.id <$> prev)
        then Some updated else None)
  /\ List.find (hasId (Workflow.id w)) (w :: prev) = Some w
  /\ (is_Some (List.find (hasId id) prev) <-> id ∈ Workflow.id <$> prev).
Proof.
  split; [apply find_hasId_delete|]. split; [|split].
  - rewrite find_hasId_update.
    destruct (List.find (hasId (Workflow.id updated)) prev) as [w0|] eqn:Hfind.
    + rewrite bool_decide_eq_true_2
        by (apply find_hasId_is_Some; rewrite Hfind; by eexists).
      apply find_hasId in Hfind as [Hid _]. simpl. by rewrite decide_True.
    + rewrite bool_decide_eq_false_2; [done|].
      intros Hin%find_hasId_is_Some. rewrite Hfind in Hin. by destruct Hin.
  - simpl. unfold hasId at 1. by rewrite bool_decide_eq_true_2.
  - apply find_hasId_is_Some.
Qed.

(** X7.  In a store without two workflows of the same id, an update is an
    in-place replacement: the one entry with the id of the updated workflow
    is overwritten where it stands. *)
Theorem store_update_in_place (updated w : Workflow.t) (i : nat)
    (prev : list Workflow.t) :
  NoDup (Workflow.id <$> prev) ->
  prev !! i = Some w ->
  Workflow.id w = Workflow.id updated ->
  handleUpdateWorkflow updated prev = <[i := updated]> prev.
Proof.
  revert i. induction prev as [|w0 prev IH]; intros i Hnodup Hi Hid; [done|].
  rewrite fmap_cons in Hnodup. apply NoDup_cons in Hnodup as [Hnin Hnodup].
  rewrite handleUpdateWorkflow_cons. destruct i as [|i]; simpl in *.
  - injection Hi as ->. rewrite decide_True by done. f_equal.
    apply handleUpdateWorkflow_missing. by rewrite <- Hid.
  - assert (Workflow.id w0 <> Workflow.id updated) as Hne.
    { intros Heq. apply Hnin. rewrite Heq, <- Hid.
      apply list_elem_of_fmap. exists w. split; [done|].
      by apply list_elem_of_lookup_2 in Hi. }
    rewrite decide_False by done. f_equal. by apply (IH i).
Qed.

(** *** The wizard inside the application *)

Lemma render_mounted_iff x :
  is_Some (App.mounted (render x))
  <-> App.view (render x) = ViewWizard /\ is_Some (activeWorkflow (render x)).
Proof.
  rewrite render_activeWorkflow. unfold render. simpl.
  destruct (decide (App.view x = ViewWizard)) as [Hv|Hv].
  - destruct (activeWorkflow x) as [w|].
    + split; [intros _; split; [done | by eexists] | intros _; by eexists].
    + split; [by intros [? ?] | by intros [_ [? ?]]].
  - split; [by intros [? ?] | by intros [? _]].
Qed.

Lemma commit_quiet_mounted_iff a s s' w :
  App.mounted a = Some s -> activeWorkflow a = Some w ->
  (is_Some (App.mounted a)
   <-> App.view a = ViewWizard /\ is_Some (activeWorkflow a)) ->
  let a' := commit (Ran.mk s' [] [] None) a in
  is_Some (App.mounted a')
  <-> App.view a' = ViewWizard /\ is_Some (activeWorkflow a').
Proof.
  intros Hm Hw Ha a'. subst a'.
  assert (onScreen a s w) as Hon.
  { split; [|done]. apply Ha. by eexists. }
  destruct (commit_nothing (Ran.mk s' [] [] None) a s w Hon eq_refl)
    as [(Hv & Hm' & Hw') _].
  rewrite Hm', Hw', Hv. split; [by intros _; split; [|eexists] | by eexists].
Qed.

(** An event leaves the application as it is, or ends in [render], or only
    writes the state of the mounted wizard. *)
Lemma dispatch_shape a e :
  dispatch a e = a
  \/ (exists x, dispatch a e = render x)
  \/ (exists s s' w,
        App.mounted a = Some s /\ activeWorkflow a = Some w
        /\ dispatch a e = commit (Ran.mk s' [] [] None) a).
Proof.
  destruct e as [uuid now|id|id| | | |value|reply| |reply]; unfold dispatch.
  - destruct (decide _); [right; left; by eexists | by left].
  - destruct (decide _); [right; left; by eexists | by left].
  - destruct (decide _); [right; left; by eexists | by left].
  - right; left; by eexists.
  - right; left; by eexists.
  - destruct (App.mounted a); [right; left; by eexists | by left].
  - destruct (App.mounted a) as [s|] eqn:Hm; [|by left].
    destruct (activeWorkflow a) as [w|] eqn:Hw; [|by left].
    destruct (decide _); [|by left]. right; right. by eexists _, _, _.
  - destruct (App.mounted a) as [s|] eqn:Hm; [|by left].
    destruct (activeWorkflow a) as [w|] eqn:Hw; [|by left].
    destruct (decide _); [|by left].
    destruct (_ || _); [by left | right; left; by eexists].
  - destruct (App.mounted a) as [s|] eqn:Hm; [|by left].
    destruct (activeWorkflow a) as [w|] eqn:Hw; [|by left].
    destruct (decide _); [|by left]. destruct (bool_decide _); [|by left].
    right; right. by eexists _, _, _.
  - destruct (App.mounted a) as [s|] eqn:Hm; [|by left].
    destruct (activeWorkflow a) as [w|] eqn:Hw; [|by left].
    destruct (decide _); [|by left]. destruct (bool_decide _); [|by left].
    destruct (WizardState.loading s); [by left | right; left; by eexists].
Qed.

(** X8.  From any start-up and after any events, the wizard is mounted
    exactly when the wizard view is shown and the active id names a workflow
    of the store: a mounted wizard always has its workflow, and never
    outlives the view. *)
Theorem wizard_mounted_iff (saved : list Workflow.t) (events : list Event) :
  let a := run (startup saved) events in
  is_Some (App.mounted a)
  <-> App.view a = ViewWizard /\ is_Some (activeWorkflow a).
Proof.
  assert (forall a e,
            (is_Some (App.mounted a)
             <-> App.view a = ViewWizard /\ is_Some (activeWorkflow a)) ->
            (is_Some (App.mounted (dispatch a e))
             <-> App.view (dispatch a e) = ViewWizard
                 /\ is_Some (activeWorkflow (dispatch a e)))) as Hstep.
  { intros a e Ha.
    destruct (dispatch_shape a e) as [-> | [[x ->] | (s & s' & w & Hm & Hw & ->)]].
    - done.
    - apply render_mounted_iff.
    - by apply (commit_quiet_mounted_iff a s s' w). }
  intros a. subst a. unfold run.
  assert (is_Some (App.mounted (startup saved))
          <-> App.view (startup saved) = ViewWizard
              /\ is_Some (activeWorkflow (startup saved))) as Hinit.
  { split; [by intros [? ?] | by intros [? _]]. }
  revert Hinit. generalize (startup saved).
  induction events as [|e events IH]; intros a Ha; [done|].
  simpl. by apply IH, Hstep.
Qed.

(** What an event of the wizard does to the store: nothing, or one update
    under the id of the active workflow. *)
Lemma dispatch_wizard_store a e :
  wizardEvent e = true ->
  App.workflows (dispatch a e) = App.workflows a
  \/ exists updated w,
       activeWorkflow a = Some w
       /\ Workflow.id updated = Workflow.id w
       /\ App.workflows (dispatch a e) = handleUpdateWorkflow updated (App.workflows a).
Proof.
  destruct e as [uuid now|id|id| | | |value|reply| |reply]; try done; intros _; simpl.
  - destruct (App.mounted a), (activeWorkflow a); try (by left).
    destruct (decide _); by left.
  - destruct (App.mounted a) as [s|]; [|by left].
    destruct (activeWorkflow a) as [w|] eqn:Hw; [|by left].
    destruct (decide _); [|by left]. destruct (_ || _); [by left|]. simpl.
    destruct (handleGeneratePlan_onUpdate w reply s)
      as [-> | (u & -> & Hid & _)]; [by left|].
    right. by exists u, w.
  - destruct (App.mounted a), (activeWorkflow a); try (by left).
    destruct (decide _); [|by left]. destruct (bool_decide _); by left.
  - destruct (App.mounted a) as [s|]; [|by left].
    destruct (activeWorkflow a) as [w|] eqn:Hw; [|by left].
    destruct (decide _); [|by left]. destruct (bool_decide _); [|by left].
    destruct (WizardState.loading s); [by left|]. simpl.
    destruct (handleGenerateScript_onUpdate w reply s)
      as [[-> _] | (plan & code & _ & _ & -> & _)]; [by left|].
    right. by exists (withScript code w), w.
Qed.

(** X9.  An event of the wizard (typing, submitting, refining, requesting
    the script) leaves every workflow whose id is not the active id where
    it is and as it is, and never changes which ids the store holds. *)
Theorem wizard_touches_active_only (a : App.t) (e : Event) (i : nat)
    (w : Workflow.t) :
  wizardEvent e = true ->
  App.workflows a !! i = Some w ->
  App.activeWorkflowId a <> Some (Workflow.id w) ->
  App.workflows (dispatch a e) !! i = Some w
  /\ Workflow.id <$> App.workflows (dispatch a e) = Workflow.id <$> App.workflows a.
Proof.
  intros He Hi Hother.
  destruct (dispatch_wizard_store a e He) as [-> | (u & w0 & Hw0 & Hid & ->)]; [done|].
  split; [|apply handleUpdateWorkflow_ids].
  unfold handleUpdateWorkflow. rewrite list_lookup_fmap, Hi. simpl.
  rewrite decide_False; [done|]. intros Heq. apply Hother.
  unfold activeWorkflow in Hw0. destruct (App.activeWorkflowId a) as [j|]; [|done].
  apply find_hasId in Hw0 as [<- _]. congruence.
Qed.

(** X10.  Deploy is terminal: once the wizard shows Deploy, no event of the
    wizard's steps changes anything in the application; only leaving the
    wizard does. *)
Theorem deploy_is_terminal (a : App.t) (s : WizardState.t) (events : list Event) :
  App.mounted a = Some s ->
  WizardState.step s = Deploy ->
  Forall (fun e => wizardEvent e = true) events ->
  run a events = a.
Proof.
  intros Hm Hstep Hall. unfold run.
  induction Hall as [|e events He _ IH]; [done|].
  simpl. assert (dispatch a e = a) as ->; [|done].
  destruct e as [uuid now|id|id| | | |value|reply| |reply]; try done;
    simpl; rewrite Hm; destruct (activeWorkflow a); try done;
    by rewrite decide_False by (by rewrite Hstep).
Qed.

(** *** The conversation *)

Lemma conversationInRounds_quiet s s' :
  conversationInRounds s ->
  WizardState.conversationHistory s' = WizardState.conversationHistory s ->
  (forall q, WizardState.clarificationQuestion s' = Some q ->
             WizardState.clarificationQuestion s = Some q
             /\ WizardState.step s' = WizardState.step s) ->
  conversationInRounds s'.
Proof.
  intros (rounds & Hh & Hall & Hq) Hh' Hq'. exists rounds.
  split; [by rewrite Hh'|]. split; [done|].
  intros q [Hqs Hstep]%Hq'. rewrite Hstep. by apply Hq.
Qed.

Lemma handleGeneratePlan_rounds workflow reply s :
  conversationInRounds s -> WizardState.step s = Describe ->
  conversationInRounds (Ran.state (handleGeneratePlan workflow reply s)).
Proof.
  intros Hs Hstep. unfold handleGeneratePlan.
  destruct (JS.truthy (JS.trim (WizardState.promptText s))) eqn:Hne; [|done].
  cbn [negb]. cbv iota.
  destruct (generateAutomationPlan _ _ _) as [request [result|err]];
    [|by apply (conversationInRounds_quiet s)].
  assert (forall s', WizardState.conversationHistory s' = WizardState.conversationHistory s ->
            WizardState.clarificationQuestion s' = None ->
            conversationInRounds s') as Hquiet.
  { intros s' Hh Hq. apply (conversationInRounds_quiet s); [done|done|].
    intros q. by rewrite Hq. }
  destruct (PlanGenerationResult.isValid result), (PlanGenerationResult.plan result),
    (PlanGenerationResult.question result) as [q|]; try (by apply Hquiet);
    (destruct (JS.truthy q) eqn:Hq; [|by apply Hquiet]);
    destruct Hs as (rounds & Hh & Hall & _);
    exists (rounds ++ [(WizardState.promptText s, q)]); simpl;
    (split; [unfold turnsOf; by rewrite bind_app, Hh, bind_singleton|]);
    (split; [apply Forall_app; split; [done|]; apply Forall_singleton; simpl;
             split; by apply truthy_true_iff|]);
    intros ? [= <-]; (split; [done|]);
    exists (WizardState.promptText s); by rewrite last_snoc.
Qed.

Lemma handleGenerateScript_rounds workflow reply s :
  conversationInRounds s -> WizardState.step s = Review ->
  conversationInRounds (Ran.state (handleGenerateScript workflow reply s)).
Proof.
  intros Hs Hstep.
  assert (WizardState.clarificationQuestion s = None) as Hnone.
  { destruct Hs as (rounds & _ & _ & Hq).
    destruct (WizardState.clarificationQuestion s) as [q|]; [|done].
    destruct (Hq q eq_refl) as [Hd _]. congruence. }
  unfold handleGenerateScript. destruct (Workflow.plan workflow); [|done].
  destruct (generateScript _ _ _) as [request [code|err]];
    apply (conversationInRounds_quiet s); try done; simpl; intros q; by rewrite Hnone.
Qed.

(** X11.  The wizard opens with its conversation in whole rounds, each a
    user turn with a non-blank utterance followed by an assistant turn with
    a non-empty question, and with no pending question; a pending question
    is pending in Describe only and is the question of the last round.
    Every handler of the wizard, run to completion on its own, keeps this:
    typing, a recording that stops, a submission from Describe, Refine
    Instructions and Generate Script from Review. *)
Theorem conversation_in_rounds (workflow : Workflow.t) (s : WizardState.t) :
  conversationInRounds (useState_initial workflow)
  /\ (conversationInRounds s ->
      (forall value, conversationInRounds (setPromptText value s))
      /\ (forall base64Data reply,
            conversationInRounds (handleRecordingStopped base64Data reply s).1.1)
      /\ (forall reply,
            WizardState.step s = Describe ->
            conversationInRounds (Ran.state (handleGeneratePlan workflow reply s)))
      /\ (WizardState.step s = Review -> conversationInRounds (handleRefine s))
      /\ (forall reply,
            WizardState.step s = Review ->
            conversationInRounds (Ran.state (handleGenerateScript workflow reply s)))).
Proof.
  split.
  - exists []. split; [done|]. split; [apply Forall_nil_2 | done].
  - intros Hs. split; [|split; [|split; [|split]]].
    + intros value. by apply (conversationInRounds_quiet s).
    + intros base64Data reply. apply (conversationInRounds_quiet s); [done|..];
        unfold handleRecordingStopped, transcribeAudio; by destruct reply.
    + intros reply Hd. by apply handleGeneratePlan_rounds.
    + intros Hr. apply (conversationInRounds_quiet s); [done|done|]. simpl.
      intros q Hq. destruct Hs as (rounds & _ & _ & Hpending).
      destruct (Hpending q Hq) as [Hd _]. congruence.
    + intros reply Hr. by apply handleGenerateScript_rounds.
Qed.

Lemma handleGeneratePlan_history workflow reply s :
  let s' := Ran.state (handleGeneratePlan workflow reply s) in
  WizardState.conversationHistory s' = WizardState.conversationHistory s
  \/ exists question,
       question <> ""
       /\ JS.trim (WizardState.promptText s) <> ""
       /\ WizardState.conversationHistory s'
          = WizardState.conversationHistory s
              ++ [ChatMessage.mk user (WizardState.promptText s);
                  ChatMessage.mk model question].
Proof.
  intros s'. subst s'. unfold handleGeneratePlan.
  destruct (JS.truthy (JS.trim (WizardState.promptText s))) eqn:Hne; [|by left].
  cbn [negb]. cbv iota. apply truthy_true_iff in Hne.
  destruct (generateAutomationPlan _ _ _) as [request [result|err]]; [|by left].
  destruct (PlanGenerationResult.isValid result), (PlanGenerationResult.plan result),
    (PlanGenerationResult.question result) as [q|]; try (by left);
    (destruct (JS.truthy q) eqn:Hq; [|by left]);
    right; exists q; by apply truthy_true_iff in Hq.
Qed.

Lemma handleGenerateScript_history workflow reply s :
  WizardState.conversationHistory (Ran.state (handleGenerateScript workflow reply s))
  = WizardState.conversationHistory s.
Proof.
  unfold handleGenerateScript. destruct (Workflow.plan workflow); [|done].
  by destruct (generateScript _ _ _) as [request [code|err]].
Qed.

(** X12.  No handler of the wizard, run to completion on its own, removes
    or rewrites a turn of the conversation.  A submission leaves the
    conversation as it was or adds exactly one round at its end, the input
    (which is then not blank) as the user's turn and a non-empty question as
    the assistant's; typing, a recording that stops, Refine Instructions and
    Generate Script leave it as it was. *)
Theorem conversation_append_only (workflow : Workflow.t) (s : WizardState.t) :
  (forall reply,
     let s' := Ran.state (handleGeneratePlan workflow reply s) in
     WizardState.conversationHistory s `prefix_of` WizardState.conversationHistory s'
     /\ (WizardState.conversationHistory s' = WizardState.conversationHistory s
         \/ exists question,
              question <> ""
              /\ JS.trim (WizardState.promptText s) <> ""
              /\ WizardState.conversationHistory s'
                 = WizardState.conversationHistory s
                     ++ [ChatMessage.mk user (WizardState.promptText s);
                         ChatMessage.mk model question]))
  /\ (forall reply,
        WizardState.conversationHistory
          (Ran.state (handleGenerateScript workflow reply s))
        = WizardState.conversationHistory s)
  /\ WizardState.conversationHistory (handleRefine s) = WizardState.conversationHistory s
  /\ (forall value,
        WizardState.conversationHistory (setPromptText value s)
        = WizardState.conversationHistory s)
  /\ (forall base64Data reply,
        WizardState.conversationHistory (handleRecordingStopped base64Data reply s).1.1
        = WizardState.conversationHistory s).
Proof.
  split; [|split; [|split; [|split]]]; try done.
  - intros reply s'. subst s'. split; [|apply handleGeneratePlan_history].
    destruct (handleGeneratePlan_history workflow reply s) as [-> | (q & _ & _ & ->)];
      [done | by eexists].
  - intros reply. apply handleGenerateScript_history.
  - intros base64Data reply. unfold handleRecordingStopped, transcribeAudio.
    by destruct reply.
Qed.

(** *** Requests and errors *)

(** X13.  A handler calls the completion service at most once and never
    again, whatever the answer.  A submission sends exactly one request when
    the input is not blank and none when it is; Generate Script sends
    exactly one when the workflow has a plan and none when it has not; what
    they send does not depend on the answer and goes to the model
    gemini-3-pro-preview.  A recording that stops sends its transcription,
    and a send of the assistant with an input that is not blank sends one
    chat, both to the model gemini-3-flash-preview. *)
Theorem one_request_per_click (workflow : Workflow.t) (reply reply' : AiResponse)
    (s : WizardState.t) (base64Data : string) (a : AssistantState.t) :
  let plan := Ran.sent (handleGeneratePlan workflow reply s) in
  let script := Ran.sent (handleGenerateScript workflow reply s) in
  let chats := (handleSend reply a).2 in
  plan = Ran.sent (handleGeneratePlan workflow reply' s)
  /\ length plan = (if JS.whitespaceOnly (WizardState.promptText s) then 0 else 1)
  /\ script = Ran.sent (handleGenerateScript workflow reply' s)
  /\ length script = (if bool_decide (is_Some (Workflow.plan workflow)) then 1 else 0)
  /\ Forall (fun request => model_ request = "gemini-3-pro-preview") (plan ++ script)
  /\ TranscriptionRequest.model_ (handleRecordingStopped base64Data reply s).1.2
     = "gemini-3-flash-preview"
  /\ chats = (handleSend reply' a).2
  /\ length chats = (if JS.whitespaceOnly (AssistantState.input a) then 0 else 1)
  /\ Forall (fun request => ChatRequest.model_ request = "gemini-3-flash-preview") chats.
Proof.
  assert (forall r,
            Ran.sent (handleGeneratePlan workflow r s)
            = if JS.truthy (JS.trim (WizardState.promptText s))
              then [(generateAutomationPlan r (WizardState.promptText s)
                       (historyLine <$> WizardState.conversationHistory s)).1]
              else []) as Hplan.
  { intros r. unfold handleGeneratePlan.
    destruct (JS.truthy (JS.trim (WizardState.promptText s))); [|done].
    cbn [negb]. cbv iota.
    destruct (generateAutomationPlan _ _ _) as [request [result|err]]; [|done].
    destruct (PlanGenerationResult.isValid result), (PlanGenerationResult.plan result),
      (PlanGenerationResult.question result) as [q|]; try done;
      by destruct (JS.truthy q). }
  assert (forall r,
            Ran.sent (handleGenerateScript workflow r s)
            = match Workflow.plan workflow with
              | Some p => [(generateScript r p (Workflow.prompt workflow)).1]
              | None => []
              end) as Hscript.
  { intros r. unfold handleGenerateScript. destruct (Workflow.plan workflow); [|done].
    by destruct (generateScript _ _ _) as [request [code|err]]. }
  assert (forall r,
            (handleSend r a).2
            = if JS.truthy (JS.trim (AssistantState.input a))
              then [(chatWithFlowAI r
                       ((fun m => ChatTurn.mk (AssistantMessage.role m)
                                    [AssistantMessage.text m])
                          <$> AssistantState.messages a)
                       (AssistantState.input a)).1]
              else []) as Hchat.
  { intros r. unfold handleSend.
    by destruct (JS.truthy (JS.trim (AssistantState.input a))). }
  assert (forall x, JS.whitespaceOnly x = negb (JS.truthy (JS.trim x))) as Hblank.
  { intros x. destruct (JS.truthy (JS.trim x)) eqn:Hx.
    - apply truthy_true_iff in Hx. rewrite trim_empty_iff in Hx.
      by destruct (JS.whitespaceOnly x).
    - apply trim_empty_iff. by destruct (JS.trim x). }
  intros plan script chats. subst plan script chats.
  rewrite !Hplan, !Hscript, !Hchat, !Hblank.
  destruct (JS.truthy (JS.trim (WizardState.promptText s))),
    (JS.truthy (JS.trim (AssistantState.input a))), (Workflow.plan workflow);
    cbn [negb length app];
    repeat split; try done;
    repeat (apply Forall_cons; split; [done|]); try apply Forall_nil_2;
    unfold handleRecordingStopped, transcribeAudio; by destruct reply.
Qed.

Lemma generateAutomationPlan_untyped_rejected reply p h err :
  (generateAutomationPlan_untyped reply p h).2 = Rejected err
  <-> reply = Rejects err
      \/ (malformed reply /\ err = "AI generated an invalid format.").
Proof.
  split.
  - destruct reply as [e|text]; simpl; [intros [= ->]; by left|].
    destruct (JSON_parse_value (JS.orElse text "{}")) as [v|] eqn:Hparse.
    + destruct v; try done. intros [= <-]. right. split; [|done].
      exists text. split; [done | by right].
    + intros [= <-]. right. split; [|done]. exists text. split; [done | by left].
  - intros [-> | [Hmal ->]]; [done | by apply malformed_settles].
Qed.

Lemma handleGeneratePlan_untyped_uncaught workflow reply s :
  let r := handleGeneratePlan_untyped workflow reply s in
  (forall err,
     UntypedRan.uncaught r = Some err
     <-> JS.trim (WizardState.promptText s) <> ""
         /\ (generateAutomationPlan_untyped reply (WizardState.promptText s)
               (historyLine <$> WizardState.conversationHistory s)).2 = Rejected err)
  /\ (is_Some (UntypedRan.uncaught r) -> UntypedRan.onUpdate r = []).
Proof.
  intros r. subst r. unfold handleGeneratePlan_untyped.
  destruct (JS.truthy (JS.trim (WizardState.promptText s))) eqn:Hne.
  - cbn [negb]. cbv iota. apply truthy_true_iff in Hne.
    destruct (generateAutomationPlan_untyped _ _ _) as [request [result|err']].
    + assert (forall x : UntypedRan.t,
                UntypedRan.uncaught x = None ->
                (forall err,
                   UntypedRan.uncaught x = Some err
                   <-> JS.trim (WizardState.promptText s) <> ""
                       /\ Fulfilled result = Rejected err)
                /\ (is_Some (UntypedRan.uncaught x) -> UntypedRan.onUpdate x = []))
        as Hnone.
      { intros x Hx. rewrite Hx. split; [|by intros [? ?]].
        intros err. split; [done | by intros [_ ?]]. }
      destruct (UntypedResult.plan result) as [plan|];
        [destruct (JSON.truthyOpt (UntypedResult.isValid result) && JSON.truthy plan)|];
        try (by apply Hnone);
        destruct (UntypedResult.question result) as [q|]; try (by apply Hnone);
        destruct (JSON.truthy q); by apply Hnone.
    + simpl. split; [|done]. intros err. split; [by intros [= ->] | by intros [_ [= ->]]].
  - simpl. split; [|by intros [? ?]]. intros err. split; [done|].
    intros [Hne' _]. apply truthy_true_iff in Hne'. congruence.
Qed.

(** X14.  A handler of the wizard leaves an error unhandled exactly when
    its call of the completion service failed.  A submission does when its
    input is not blank and the call was rejected (the error is the
    rejection) or the output was not JSON text or was the text [null] (the
    invalid-format error); Generate Script does when the workflow has a plan
    and the call was rejected; a recording that stops does when the
    transcription was rejected.  A handler that leaves an error has handed
    no workflow to [onUpdate]. *)
Theorem errors_only_from_failed_calls (workflow : Workflow.t) (reply : AiResponse)
    (s : WizardState.t) (base64Data : string) :
  let plan := handleGeneratePlan_untyped workflow reply s in
  let script := handleGenerateScript workflow reply s in
  (forall err,
     UntypedRan.uncaught plan = Some err
     <-> JS.trim (WizardState.promptText s) <> ""
         /\ (reply = Rejects err
             \/ (malformed reply /\ err = "AI generated an invalid format.")))
  /\ (forall err,
        Ran.uncaught script = Some err
        <-> is_Some (Workflow.plan workflow) /\ reply = Rejects err)
  /\ (forall err,
        (handleRecordingStopped base64Data reply s).2 = Some err <-> reply = Rejects err)
  /\ (is_Some (UntypedRan.uncaught plan) -> UntypedRan.onUpdate plan = [])
  /\ (is_Some (Ran.uncaught script) -> Ran.onUpdate script = []).
Proof.
  intros plan script. subst plan script.
  destruct (handleGeneratePlan_untyped_uncaught workflow reply s) as [Hplan Hquiet].
  split; [|split; [|split; [|split]]].
  - intros err. rewrite Hplan. by rewrite generateAutomationPlan_untyped_rejected.
  - intros err. unfold handleGenerateScript.
    destruct (Workflow.plan workflow) as [p|].
    + unfold generateScript. destruct reply as [e|text]; simpl.
      * split; [intros [= ->]; by split | by intros [_ [= ->]]].
      * split; [done | by intros [_ ?]].
    + simpl. split; [done | by intros [[? ?] _]].
  - intros err. unfold handleRecordingStopped, transcribeAudio.
    destruct reply as [e|text]; simpl; [split; by intros [= ->] | done].
  - exact Hquiet.
  - unfold handleGenerateScript. destruct (Workflow.plan workflow) as [p|]; [|done].
    unfold generateScript. destruct reply as [e|text]; simpl; [done | by intros [? ?]].
Qed.

(** *** Accepting a plan and generating the script, in the application *)

(** X15.  In Describe, typing a non-blank utterance and submitting it, when
    the answer is an accepted plan, stores the workflow with the plan, the
    name and the description of the plan, the flattened conversation as
    prompt and status Draft, under the same id, creation time and script,
    and puts the wizard in Review with the conversation and the input kept
    and no pending question.  Re-opened, that workflow shows Review if the
    script was null or empty. *)
Theorem plan_accepted (a : App.t) (s : WizardState.t) (w : Workflow.t)
    (utterance : string) (reply : AiResponse) (plan : WorkflowPlan.t) :
  App.view a = ViewWizard ->
  App.mounted a = Some s ->
  activeWorkflow a = Some w ->
  WizardState.step s = Describe ->
  WizardState.loading s = false ->
  JS.trim utterance <> "" ->
  acceptedWith reply plan ->
  let a' := run a [TypePrompt utterance; ClickGeneratePlan reply] in
  let accepted :=
    Workflow.mk (Workflow.id w) (WorkflowPlan.name plan) (WorkflowPlan.description plan)
      (JS.join " "
         (ChatMessage.text <$>
            (WizardState.conversationHistory s ++ [ChatMessage.mk user utterance])))
      (Some plan) (Workflow.script w) Draft (Workflow.createdAt w) in
  activeWorkflow a' = Some accepted
  /\ App.workflows a' = handleUpdateWorkflow accepted (App.workflows a)
  /\ App.mounted a'
     = Some (WizardState.mk Review false utterance
               (WizardState.conversationHistory s) None)
  /\ App.unhandled a' = App.unhandled a
  /\ (JS.truthyOpt (Workflow.script w) = false -> initialStep accepted = Review).
Proof.
  intros Hv Hm Hw Hstep Hload Hne (result & Hdec & Hvalid & Hp) a' accepted.
  assert (onScreen a s w) as Hon by done.
  subst a'. unfold run. cbn [foldl].
  rewrite (dispatch_TypePrompt a s w) by done.
  destruct (commit_nothing (Ran.mk (setPromptText utterance s) [] [] None)
              a s w Hon eq_refl) as [Hon1 Hws1].
  simpl in Hon1.
  rewrite (dispatch_ClickGeneratePlan _ _ w _ Hon1) by done.
  pose proof (handleGeneratePlan_accepted w reply (setPromptText utterance s)
                result plan) as Hrun.
  cbn [setPromptText WizardState.promptText WizardState.conversationHistory
       WizardState.step] in Hrun.
  rewrite Hrun; [|done|by apply decodesTo_settles|done|done].
  fold accepted.
  match goal with |- context [render (commit ?r ?a1)] =>
    destruct (commit_updated r a1 _ w accepted Hon1 eq_refl eq_refl)
      as [Hon2 Hws2] end.
  rewrite (render_onScreen _ _ _ Hon2).
  destruct Hon2 as (_ & Hm2 & Hw2).
  split; [done|]. split; [by rewrite Hws2, Hws1|]. split; [done|].
  split; [simpl; by rewrite !app_nil_r|].
  intros Hscript. unfold initialStep, accepted. simpl. by rewrite Hscript.
Qed.

(** X16.  In Review on a workflow with a plan, a click on Generate Script
    that the completion service answers stores the workflow with the code
    (the answer's text, or the empty string without one, with the fences
    dropped and trimmed) and status Generated, everything else as it was,
    puts the wizard in Deploy, records the one request built from the plan
    and the stored prompt, and leaves no error. *)
Theorem script_generated (a : App.t) (s : WizardState.t) (w : Workflow.t)
    (plan : WorkflowPlan.t) (text : option string) :
  App.view a = ViewWizard ->
  App.mounted a = Some s ->
  activeWorkflow a = Some w ->
  WizardState.step s = Review ->
  WizardState.loading s = false ->
  Workflow.plan w = Some plan ->
  let code :=
    JS.trim (JS.removeAll "```" (JS.removeAll "```javascript" (JS.orElse text ""))) in
  let a' := dispatch a (ClickGenerateScript (Responds text)) in
  activeWorkflow a' = Some (withScript code w)
  /\ App.workflows a' = handleUpdateWorkflow (withScript code w) (App.workflows a)
  /\ App.mounted a'
     = Some (WizardState.mk Deploy false (WizardState.promptText s)
               (WizardState.conversationHistory s)
               (WizardState.clarificationQuestion s))
  /\ App.log a'
     = App.log a ++ [(generateScript (Responds text) plan (Workflow.prompt w)).1]
  /\ App.unhandled a' = App.unhandled a.
Proof.
  intros Hv Hm Hw Hstep Hload Hplan code a'.
  assert (onScreen a s w) as Hon by done.
  assert (a' = render (commit (handleGenerateScript w (Responds text) s) a)) as ->.
  { subst a'. unfold dispatch. rewrite Hm, Hw, Hload.
    rewrite decide_True by done. rewrite bool_decide_eq_true_2; [done|].
    rewrite Hplan. by eexists. }
  assert (handleGenerateScript w (Responds text) s
          = Ran.mk (WizardState.mk Deploy false (WizardState.promptText s)
                      (WizardState.conversationHistory s)
                      (WizardState.clarificationQuestion s))
              [withScript code w]
              [(generateScript (Responds text) plan (Workflow.prompt w)).1] None)
    as ->.
  { unfold handleGenerateScript. rewrite Hplan. unfold withScript. by rewrite Hplan. }
  match goal with |- context [render (commit ?r ?a1)] =>
    destruct (commit_updated r a1 s w (withScript code w) Hon eq_refl eq_refl)
      as [Hon2 Hws2] end.
  rewrite (render_onScreen _ _ _ Hon2).
  destruct Hon2 as (_ & Hm2 & Hw2).
  split; [done|]. split; [done|]. split; [done|]. split; [done|].
  simpl. apply app_nil_r.
Qed.

(** X17.  Generating the script again is as generating it the first time:
    [handleGenerateScript] on a workflow that already carries a generated
    script does exactly what it does on the workflow before that script was
    stored; the old script is overwritten, never read. *)
Theorem script_generated_again (workflow : Workflow.t) (code : string)
    (reply : AiResponse) (s : WizardState.t) :
  handleGenerateScript (withScript code workflow) reply s
  = handleGenerateScript workflow reply s.
Proof.
  unfold handleGenerateScript, withScript.
  cbn [Workflow.id Workflow.name Workflow.description Workflow.prompt Workflow.plan
       Workflow.createdAt].
  destruct (Workflow.plan workflow); [|done].
  by destruct (generateScript _ _ _) as [request [code'|err]].
Qed.

(** X18.  A submission reads the workflow only for its id, its script and
    its creation time: two workflows that agree on these give the same
    outcome, whatever their name, description, prompt, plan and status.
    An accepted plan replaces the previous one wholesale. *)
Theorem submission_reads_id_script_createdAt (w1 w2 : Workflow.t)
    (reply : AiResponse) (s : WizardState.t) :
  Workflow.id w1 = Workflow.id w2 ->
  Workflow.script w1 = Workflow.script w2 ->
  Workflow.createdAt w1 = Workflow.createdAt w2 ->
  handleGeneratePlan w1 reply s = handleGeneratePlan w2 reply s.
Proof.
  intros Hid Hscript Hcreated. unfold handleGeneratePlan.
  by rewrite Hid, Hscript, Hcreated.
Qed.

(** *** Unique ids *)

Lemma dispatch_ids a e :
  Workflow.id <$> App.workflows (dispatch a e) `sublist_of` Workflow.id <$> App.workflows a
  \/ exists uuid now,
       e = ClickNewWorkflow uuid now
       /\ Workflow.id <$> App.workflows (dispatch a e)
          = uuid :: (Workflow.id <$> App.workflows a).
Proof.
  destruct (wizardEvent e) eqn:He.
  - left. destruct (dispatch_wizard_store a e He) as [-> | (u & w & _ & _ & ->)];
      [done | by rewrite handleUpdateWorkflow_ids].
  - destruct e as [uuid now|id|id| | | |value|reply| |reply]; try done; unfold dispatch.
    + destruct (decide _); [right; by exists uuid, now | by left].
    + destruct (decide _); by left.
    + destruct (decide _); [|by left]. left. simpl.
      apply fmap_sublist, handleDeleteWorkflow_sublist.
    + by left.
    + by left.
    + destruct (App.mounted a); by left.
Qed.

(** X19.  If the store holds no two workflows of the same id and every UUID
    handed to a new workflow is one the store does not hold at that moment,
    then no sequence of events brings two workflows of the same id into the
    store. *)
Theorem unique_ids_kept (a : App.t) (events : list Event) :
  NoDup (Workflow.id <$> App.workflows a) ->
  freshUUIDs a events ->
  NoDup (Workflow.id <$> App.workflows (run a events)).
Proof.
  unfold run. revert a. induction events as [|e events IH]; intros a Ha Hfresh; [done|].
  destruct Hfresh as [He Hfresh]. simpl. apply IH; [|done].
  destruct (dispatch_ids a e) as [Hsub | (uuid & now & -> & ->)].
  - by apply (sublist_NoDup _ _ Ha).
  - by apply NoDup_cons.
Qed.

(** *** The assistant *)

Lemma orElse_nonempty (o : option string) (d : string) :
  d <> "" -> JS.orElse o d <> "".
Proof.
  intros Hd. destruct o as [t|]; [|done]. simpl.
  destruct (JS.truthy t) eqn:Ht; [by apply truthy_true_iff | done].
Qed.

(** What [handleSend] does with an input that is not blank. *)
Lemma handleSend_sent reply s :
  JS.trim (AssistantState.input s) <> "" ->
  handleSend reply s =
    (AssistantState.mk (AssistantState.isOpen s)
       (AssistantState.messages s
          ++ [AssistantMessage.mk user (AssistantState.input s) None;
              match reply with
              | Rejects _ =>
                  AssistantMessage.mk model "I encountered an error. Please try again."
                    (Some true)
              | Responds text =>
                  AssistantMessage.mk model (JS.orElse text "Error occurred.") None
              end])
       "" false,
     [ChatRequest.mk "gemini-3-flash-preview"
        ((fun m => ChatTurn.mk (AssistantMessage.role m) [AssistantMessage.text m])
           <$> AssistantState.messages s)
        "You are FlowAI, a helpful assistant for Google Apps Script automation. Be technical, helpful, and concise."
        (AssistantState.input s)]).
Proof.
  intros Hne. unfold handleSend. apply truthy_true_iff in Hne. rewrite Hne.
  cbn [negb]. cbv iota. unfold chatWithFlowAI. rewrite <- app_assoc.
  by destruct reply.
Qed.

(** X20.  Sending an input that is not blank to the assistant adds exactly
    two messages at the end: the input as the user's message, then a
    message of the model that is never empty.  When the call fails that
    message is the fixed apology, flagged as an error, and only then; when
    the service answers it is the answer's text, or the text
    [Error occurred.] when the answer has none.  The input is cleared, and
    the one chat started carries the input as its message and all the
    messages shown before, the greeting and earlier apologies included, as
    its history. *)
Theorem assistant_send (reply : AiResponse) (s : AssistantState.t) :
  JS.trim (AssistantState.input s) <> "" ->
  let r := handleSend reply s in
  exists answer request,
    AssistantState.messages r.1
    = AssistantState.messages s
        ++ [AssistantMessage.mk user (AssistantState.input s) None; answer]
    /\ AssistantMessage.role answer = model
    /\ AssistantMessage.text answer <> ""
    /\ (AssistantMessage.isError answer = Some true <-> exists err, reply = Rejects err)
    /\ (forall text, reply = Responds text ->
          answer = AssistantMessage.mk model (JS.orElse text "Error occurred.") None)
    /\ AssistantState.input r.1 = ""
    /\ AssistantState.loading r.1 = false
    /\ AssistantState.isOpen r.1 = AssistantState.isOpen s
    /\ r.2 = [request]
    /\ ChatRequest.message request = AssistantState.input s
    /\ ChatRequest.history request
       = (fun m => ChatTurn.mk (AssistantMessage.role m) [AssistantMessage.text m])
           <$> AssistantState.messages s.
Proof.
  intros Hne r. subst r. rewrite (handleSend_sent reply s Hne).
  eexists _, _. cbn [fst snd AssistantState.messages AssistantState.input
                     AssistantState.loading AssistantState.isOpen].
  split; [reflexivity|].
  destruct reply as [err|text]; cbn.
  - repeat split; try done; by eexists.
  - repeat split; try done.
    + by apply orElse_nonempty.
    + by intros [err ?].
    + by intros ? [= <-].
Qed.

(** X21.  The assistant starts with the greeting alone and is not loading.
    Every handler of the assistant, run to completion on its own, keeps its
    messages in this form: the greeting followed by whole exchanges, each a
    message of the user that is not blank followed by a message of the model
    that is not empty; and it leaves the assistant not loading.  A send with
    a blank input changes nothing. *)
Theorem assistant_in_exchanges (s : AssistantState.t) :
  inExchanges assistantInitial
  /\ (JS.whitespaceOnly (AssistantState.input s) = true ->
      forall reply, handleSend reply s = (s, []))
  /\ (inExchanges s ->
      (forall reply, inExchanges (handleSend reply s).1)
      /\ (forall isOpen, inExchanges (setIsOpen isOpen s))
      /\ (forall input, inExchanges (setInput input s))).
Proof.
  split; [|split].
  - split; [done|]. exists []. split; [done | apply Forall_nil_2].
  - intros Hblank reply. apply trim_empty_iff in Hblank.
    unfold handleSend. by rewrite Hblank.
  - intros Hs. split; [|by split].
    intros reply.
    destruct (JS.truthy (JS.trim (AssistantState.input s))) eqn:Hne.
    + apply truthy_true_iff in Hne. rewrite (handleSend_sent reply s Hne).
      destruct Hs as [_ (exchanges & Hm & Hall)]. split; [done|]. cbn [fst].
      eexists (exchanges ++ [(AssistantState.input s, _)]).
      cbn [AssistantState.messages]. split.
      * unfold exchangesOf. rewrite bind_app, Hm. by simpl.
      * apply Forall_app. split; [done|]. apply Forall_singleton. simpl.
        split; [done|]. destruct reply as [err|text]; simpl; [done|].
        split; [done|]. by apply orElse_nonempty.
    + unfold handleSend. by rewrite Hne.
Qed.

(** *** Dictation *)

(** X22.  When a recording stops, the transcript is put after the input
    and a space, or alone when the input is empty; an answer without text
    counts as an empty transcript.  So dictating never removes what was
    typed: the old input is always the beginning of the new one.  A failed
    transcription leaves the input as it was and its error unhandled.  The
    step, the conversation and the pending question are never touched. *)
Theorem dictation_extends_input (base64Data : string) (reply : AiResponse)
    (s : WizardState.t) :
  let '(s', request, uncaught) := handleRecordingStopped base64Data reply s in
  JS.startsWith (WizardState.promptText s) (WizardState.promptText s') = true
  /\ WizardState.step s' = WizardState.step s
  /\ WizardState.conversationHistory s' = WizardState.conversationHistory s
  /\ WizardState.clarificationQuestion s' = WizardState.clarificationQuestion s
  /\ WizardState.loading s' = false
  /\ TranscriptionRequest.mimeType request = "audio/webm"
  /\ TranscriptionRequest.data request = base64Data
  /\ match reply with
     | Rejects err =>
         uncaught = Some err
         /\ WizardState.promptText s' = WizardState.promptText s
     | Responds text =>
         uncaught = None
         /\ WizardState.promptText s'
            = (if JS.truthy (WizardState.promptText s)
               then WizardState.promptText s +:+ " " +:+ JS.orElse text ""
               else JS.orElse text "")
     end.
Proof.
  unfold handleRecordingStopped, transcribeAudio.
  destruct reply as [err|text]; cbn.
  - repeat split; try done. rewrite <- (app_empty_r (WizardState.promptText s)) at 2.
    apply startsWith_app_self.
  - repeat split; try done.
    destruct (JS.truthy (WizardState.promptText s)) eqn:Hp.
    + apply startsWith_app_self.
    + destruct (WizardState.promptText s); [apply startsWith_empty_l | done].
Qed.

(** *** The theme *)

(** X23.  The theme the user chose survives a reload and overrides the
    system: after [toggleTheme], initialising the theme again (whatever the
    cell and the document class are reset to, whatever the system prefers)
    gives the mode the toggle gave.  Toggling twice gives back the mode;
    after a toggle or an initialisation the document class agrees with the
    mode.  With nothing saved the system preference decides, and a saved
    value that is neither empty nor [dark] means light. *)
Theorem theme_persisted (prefersDark darkMode htmlDark : bool) (t : Theme.t) :
  Theme.darkMode
    (initTheme prefersDark
       (Theme.mk darkMode (Theme.savedTheme (toggleTheme t)) htmlDark))
  = Theme.darkMode (toggleTheme t)
  /\ Theme.darkMode (toggleTheme (toggleTheme t)) = Theme.darkMode t
  /\ Theme.htmlDark (toggleTheme t) = Theme.darkMode (toggleTheme t)
  /\ Theme.htmlDark (initTheme prefersDark t) = Theme.darkMode (initTheme prefersDark t)
  /\ (Theme.savedTheme t = None ->
      Theme.darkMode (initTheme prefersDark t) = prefersDark)
  /\ (forall saved, Theme.savedTheme t = Some saved -> saved <> "" -> saved <> "dark" ->
      Theme.darkMode (initTheme prefersDark t) = false).
Proof.
  split; [|split; [|split; [|split; [|split]]]].
  - unfold initTheme, toggleTheme. simpl. by destruct (Theme.darkMode t), prefersDark.
  - simpl. apply negb_involutive.
  - done.
  - unfold initTheme. by destruct (_ || _).
  - intros Hs. unfold initTheme. rewrite Hs. simpl. by destruct prefersDark.
  - intros saved Hs Hne Hdark. unfold initTheme. rewrite Hs.
    rewrite bool_decide_eq_false_2 by congruence.
    apply truthy_true_iff in Hne. simpl. by rewrite Hne.
Qed.

(** *** What the requests carry *)

Lemma app_assoc_string (a b c : string) : (a +:+ b) +:+ c = a +:+ b +:+ c.
Proof. induction a as [|x a IH]; [done|]. by rewrite !app_String, IH. Qed.

Lemma includes_intro (pat a b : string) : JS.includes pat (a +:+ pat +:+ b) = true.
Proof.
  induction a as [|c a IH].
  - change ("" +:+ pat +:+ b) with (pat +:+ b).
    destruct (pat +:+ b) as [|c t] eqn:E.
    + destruct pat; [done | by rewrite app_String in E].
    + cbn [JS.includes]. by rewrite <- E, startsWith_app_self.
  - rewrite app_String. cbn [JS.includes]. rewrite IH. apply orb_true_r.
Qed.

Lemma includes_inside (pat s t : string) :
  (exists a b, s = a +:+ pat +:+ b) -> (exists c d, t = c +:+ s +:+ d) ->
  JS.includes pat t = true.
Proof.
  intros (a & b & ->) (c & d & ->).
  rewrite <- (includes_intro pat (c +:+ a) (b +:+ d)).
  by rewrite !app_assoc_string.
Qed.

Lemma join_elem (sep x : string) (l : list string) :
  x ∈ l -> exists a b, JS.join sep l = a +:+ x +:+ b.
Proof.
  induction l as [|y l IH]; [by intros ?%elem_of_nil|].
  intros [->|Hin]%elem_of_cons.
  - destruct l as [|z l].
    + exists "", "". simpl. by rewrite app_empty_r.
    + by exists "", (sep +:+ JS.join sep (z :: l)).
  - destruct (IH Hin) as (a & b & Hj). destruct l as [|z l]; [by apply elem_of_nil in Hin|].
    exists (y +:+ sep +:+ a), b.
    change (JS.join sep (y :: z :: l)) with (y +:+ sep +:+ JS.join sep (z :: l)).
    by rewrite Hj, !app_assoc_string.
Qed.

(** X24.  Every request for a plan carries the whole conversation: the
    user's current input and, for each earlier turn, its line (the role,
    a colon and the text) appear verbatim in the text sent to the
    completion service. *)
Theorem plan_request_carries_conversation (workflow : Workflow.t)
    (reply : AiResponse) (s : WizardState.t) (request : Request) :
  Ran.sent (handleGeneratePlan workflow reply s) = [request] ->
  JS.includes (WizardState.promptText s) (contents request) = true
  /\ forall m, m ∈ WizardState.conversationHistory s ->
       JS.includes (historyLine m) (contents request) = true
       /\ JS.includes (ChatMessage.text m) (contents request) = true.
Proof.
  intros Hsent.
  assert (request = (generateAutomationPlan reply (WizardState.promptText s)
                       (historyLine <$> WizardState.conversationHistory s)).1) as ->.
  { revert Hsent. unfold handleGeneratePlan. destruct (negb _); [done|].
    destruct (generateAutomationPlan _ _ _) as [req [result|err]]; simpl;
      [|by intros [= ->]].
    destruct (PlanGenerationResult.isValid result), (PlanGenerationResult.plan result),
      (PlanGenerationResult.question result) as [q|];
      try destruct (JS.truthy q); simpl; by intros [= ->]. }
  unfold generateAutomationPlan. cbn [fst contents]. split.
  - rewrite <- app_assoc_string. apply includes_intro.
  - intros m Hm.
    assert (historyLine m ∈ historyLine <$> WizardState.conversationHistory s) as Hline.
    { apply list_elem_of_fmap. by exists m. }
    rewrite bool_decide_eq_true_2
      by (destruct (WizardState.conversationHistory s); [by apply elem_of_nil in Hm
          | simpl; lia]).
    destruct (join_elem JS.LF _ _ Hline) as (a & b & ->).
    assert (exists c d,
              planPromptHead
                +:+ ("Previous conversation context:" +:+ JS.LF
                       +:+ (a +:+ historyLine m +:+ b)
                       +:+ JS.LF +:+ JS.LF +:+ "Current Request: ")
                +:+ WizardState.promptText s +:+ planPromptTail
              = c +:+ historyLine m +:+ d) as Hocc.
    { exists (planPromptHead +:+ "Previous conversation context:" +:+ JS.LF +:+ a),
             (b +:+ JS.LF +:+ JS.LF +:+ "Current Request: "
                +:+ WizardState.promptText s +:+ planPromptTail).
      by rewrite !app_assoc_string. }
    split.
    + destruct Hocc as (c & d & ->). apply includes_intro.
    + apply (includes_inside _ (historyLine m)); [|done].
      exists ((if decide (ChatMessage.role m = user) then "User" else "AI") +:+ ": "), "".
      unfold historyLine. by rewrite app_empty_r, !app_assoc_string.
Qed.

(** X25.  Every request for a script carries the plan as serialised by
    [JSON.stringify] and the prompt stored on the workflow, verbatim. *)
Theorem script_request_carries_plan (workflow : Workflow.t) (plan : WorkflowPlan.t)
    (reply : AiResponse) (s : WizardState.t) (request : Request) :
  Workflow.plan workflow = Some plan ->
  Ran.sent (handleGenerateScript workflow reply s) = [request] ->
  JS.includes (JSON_stringify plan) (contents request) = true
  /\ JS.includes (Workflow.prompt workflow) (contents request) = true.
Proof.
  intros Hplan Hsent.
  assert (request = (generateScript reply plan (Workflow.prompt workflow)).1) as ->.
  { revert Hsent. unfold handleGenerateScript. rewrite Hplan.
    destruct (generateScript _ _ _) as [req [code|err]]; simpl; by intros [= ->]. }
  unfold generateScript. cbn [fst contents]. split.
  - apply includes_intro.
  - apply (includes_inside _ (Workflow.prompt workflow));
      [exists "", ""; by rewrite app_empty_r|].
    exists ("Generate a production-ready Google Apps Script for this plan: "
              +:+ JSON_stringify plan +:+ ". Context: "),
           ". Use modern ES6+ features and include robust error handling. Return only code.".
    by rewrite !app_assoc_string.
Qed.

(** *** A new workflow *)

(** X26.  On the dashboard, the New Workflow card puts a blank draft in
    front of the store and opens the wizard on it, in Describe, with an
    empty input and an empty conversation, without calling the completion
    service; this holds whatever the store holds, even a workflow of the
    same id. *)
Theorem new_workflow_opens_describe (a : App.t) (uuid : string) (now : Z) :
  App.view a = ViewDashboard ->
  App.mounted a = None ->
  let a' := dispatch a (ClickNewWorkflow uuid now) in
  let created := Workflow.mk uuid "" "" "" None None Draft now in
  App.workflows a' = created :: App.workflows a
  /\ App.view a' = ViewWizard
  /\ activeWorkflow a' = Some created
  /\ App.mounted a' = Some (WizardState.mk Describe false "" [] None)
  /\ App.log a' = App.log a.
Proof.
  intros Hv Hm a' created. subst a'. unfold dispatch.
  rewrite decide_True by done.
  assert (activeWorkflow (handleCreateNew uuid now a) = Some created) as Hw.
  { unfold activeWorkflow, handleCreateNew. simpl. unfold hasId at 1. simpl.
    by rewrite bool_decide_eq_true_2. }
  rewrite <- (render_activeWorkflow (handleCreateNew uuid now a)) in Hw.
  split; [done|]. split; [done|]. split; [done|]. split; [|done].
  unfold render. rewrite render_activeWorkflow in Hw. rewrite Hw. simpl. by rewrite Hm.
Qed.

End Program.

(** ** The properties on examples *)

(** C1, an instance: one clarification round, then the accepted answer. *)
Lemma prompt_flattens_conversation_witness :
  App.view (run JSON_parse_fragment JSON_stringify_fragment initial
              [ClickNewWorkflow "wf-1" 0]) = ViewWizard
  /\ App.mounted (run JSON_parse_fragment JSON_stringify_fragment initial
                    [ClickNewWorkflow "wf-1" 0]) = Some (describing "")
  /\ activeWorkflow (run JSON_parse_fragment JSON_stringify_fragment initial
                       [ClickNewWorkflow "wf-1" 0]) = Some blankWorkflow
  /\ Forall (needsClarification JSON_parse_fragment) [invoiceRound]
  /\ JS.trim "Gmail, every hour" <> ""
  /\ acceptedWith JSON_parse_fragment (Responds (Some acceptedText)) invoicePlan
  /\ persistedPrompt
       (run JSON_parse_fragment JSON_stringify_fragment
          (run JSON_parse_fragment JSON_stringify_fragment initial
             [ClickNewWorkflow "wf-1" 0])
          (session [invoiceRound] "Gmail, every hour" (Responds (Some acceptedText))))
     = Some (JS.join " " (turnTexts [invoiceRound] "Gmail, every hour")).
Proof.
  assert (Forall (needsClarification JSON_parse_fragment) [invoiceRound]) as Hrounds.
  { apply Forall_cons. split; [|apply Forall_nil_2].
    split; [by vm_compute|].
    exists (PlanGenerationResult.mk false (Some "Which email provider?") None).
    split; [by exists (Some clarificationText)|].
    split; [by intros [? _]|]. by split. }
  assert (acceptedWith JSON_parse_fragment (Responds (Some acceptedText)) invoicePlan)
    as Haccepted.
  { exists (PlanGenerationResult.mk true None (Some invoicePlan)).
    split; [by exists (Some acceptedText) | by split]. }
  assert (JS.trim "Gmail, every hour" <> "") as Hne by (by vm_compute).
  repeat (split; [done|]).
  by apply (prompt_flattens_conversation JSON_parse_fragment JSON_stringify_fragment
              _ (describing "") blankWorkflow [invoiceRound] "Gmail, every hour"
              (Responds (Some acceptedText)) invoicePlan).
Defined.

(** C1 as stated fails: after one clarification round the stored prompt
    holds the assistant's question and the separating spaces; it is neither
    the concatenation of the user's utterances nor their join by spaces. *)
Lemma prompt_spec_counterexample :
  persistedPrompt
    (run JSON_parse_fragment JSON_stringify_fragment
       (run JSON_parse_fragment JSON_stringify_fragment initial
          [ClickNewWorkflow "wf-1" 0])
       (session [invoiceRound] "Gmail, every hour" (Responds (Some acceptedText))))
  = Some "notify me about invoices Which email provider? Gmail, every hour"
  /\ JS.join " " (userUtterances [invoiceRound] "Gmail, every hour")
     = "notify me about invoices Gmail, every hour"
  /\ ~ prompt_spec JSON_parse_fragment JSON_stringify_fragment
        (run JSON_parse_fragment JSON_stringify_fragment initial
           [ClickNewWorkflow "wf-1" 0])
        [invoiceRound] "Gmail, every hour" (Responds (Some acceptedText)).
Proof.
  split; [by vm_compute|]. split; [by vm_compute|].
  unfold prompt_spec. by vm_compute.
Qed.

(** C2 as stated fails: a workflow without a plan and with a script opens
    on Deploy, not on Describe. *)
Lemma currentStep_spec_counterexample :
  Workflow.plan scriptOnlyWorkflow = None
  /\ initialStep scriptOnlyWorkflow = Deploy
  /\ initialStep scriptOnlyWorkflow
     <> currentStep_spec
          (bool_decide (is_Some (Workflow.plan scriptOnlyWorkflow)))
          (bool_decide (is_Some (Workflow.script scriptOnlyWorkflow))).
Proof. by vm_compute. Qed.





(** C5, an instance: the scenario of the invoices. *)
Lemma clarification_round_witness :
  JS.trim (WizardState.promptText (describing "notify me about invoices")) <> ""
  /\ WizardState.step (describing "notify me about invoices") = Describe
  /\ decodesTo JSON_parse_fragment (Responds (Some clarificationText))
       (PlanGenerationResult.mk false (Some "Which email provider?") None)
  /\ "Which email provider?" <> ""
  /\ (WizardState.step
        (Ran.state (handleGeneratePlan JSON_parse_fragment blankWorkflow
                      (Responds (Some clarificationText))
                      (describing "notify me about invoices"))) = Describe
      /\ WizardState.conversationHistory
           (Ran.state (handleGeneratePlan JSON_parse_fragment blankWorkflow
                         (Responds (Some clarificationText))
                         (describing "notify me about invoices")))
         = WizardState.conversationHistory (describing "notify me about invoices")
             ++ [ChatMessage.mk user
                   (WizardState.promptText (describing "notify me about invoices"));
                 ChatMessage.mk model "Which email provider?"]
      /\ WizardState.clarificationQuestion
           (Ran.state (handleGeneratePlan JSON_parse_fragment blankWorkflow
                         (Responds (Some clarificationText))
                         (describing "notify me about invoices")))
         = Some "Which email provider?"
      /\ WizardState.promptText
           (Ran.state (handleGeneratePlan JSON_parse_fragment blankWorkflow
                         (Responds (Some clarificationText))
                         (describing "notify me about invoices"))) = ""
      /\ Ran.onUpdate (handleGeneratePlan JSON_parse_fragment blankWorkflow
                         (Responds (Some clarificationText))
                         (describing "notify me about invoices")) = []
      /\ Ran.uncaught (handleGeneratePlan JSON_parse_fragment blankWorkflow
                         (Responds (Some clarificationText))
                         (describing "notify me about invoices")) = None).
Proof.
  assert (JS.trim (WizardState.promptText (describing "notify me about invoices")) <> "")
    as Hne by (by vm_compute).
  assert (decodesTo JSON_parse_fragment (Responds (Some clarificationText))
            (PlanGenerationResult.mk false (Some "Which email provider?") None))
    as Hdec by (by exists (Some clarificationText)).
  assert ("Which email provider?" <> "") as Hq by done.
  split; [exact Hne|]. split; [reflexivity|]. split; [exact Hdec|]. split; [exact Hq|].
  exact (clarification_round JSON_parse_fragment blankWorkflow
           (Responds (Some clarificationText)) (describing "notify me about invoices")
           (PlanGenerationResult.mk false (Some "Which email provider?") None)
           "Which email provider?" Hne eq_refl Hdec eq_refl eq_refl Hq).
Defined.

(** C6, an instance: three spaces. *)
Lemma blank_utterance_ignored_witness :
  JS.whitespaceOnly (WizardState.promptText (describing "   ")) = true
  /\ (Ran.sent (handleGeneratePlan JSON_parse_fragment blankWorkflow
                  (Responds (Some acceptedText)) (describing "   ")) = []
      /\ Ran.state (handleGeneratePlan JSON_parse_fragment blankWorkflow
                      (Responds (Some acceptedText)) (describing "   "))
         = describing "   "
      /\ Ran.onUpdate (handleGeneratePlan JSON_parse_fragment blankWorkflow
                         (Responds (Some acceptedText)) (describing "   ")) = []
      /\ Ran.uncaught (handleGeneratePlan JSON_parse_fragment blankWorkflow
                         (Responds (Some acceptedText)) (describing "   ")) = None).
Proof.
  split; [reflexivity|].
  exact (blank_utterance_ignored JSON_parse_fragment blankWorkflow
           (Responds (Some acceptedText)) (describing "   ") eq_refl).
Defined.

(** C6 as stated fails: a blank utterance is not rejected with an error,
    the handler returns without one. *)
Lemma emptyInput_spec_counterexample :
  JS.whitespaceOnly (WizardState.promptText (describing "   ")) = true
  /\ Ran.uncaught (handleGeneratePlan JSON_parse_fragment blankWorkflow
                     (Responds (Some acceptedText)) (describing "   ")) = None
  /\ ~ emptyInput_spec JSON_parse_fragment blankWorkflow
        (Responds (Some acceptedText)) (describing "   ").
Proof.
  split; [done|]. split; [done|].
  intros (_ & _ & _ & [e He]). vm_compute in He. discriminate He.
Qed.

(** C7, an instance: the call is rejected, and the call answers without
    text. *)
Lemma synthesis_failure_and_empty_witness :
  Workflow.plan plannedWorkflow = Some invoicePlan
  /\ WizardState.step reviewing = Review
  /\ JS.truthyOpt None = false
  /\ (Ran.uncaught (handleGenerateScript JSON_stringify_fragment plannedWorkflow
                      (Rejects "503 Service Unavailable") reviewing)
      = Some "503 Service Unavailable"
      /\ WizardState.step
           (Ran.state (handleGenerateScript JSON_stringify_fragment plannedWorkflow
                         (Rejects "503 Service Unavailable") reviewing)) = Review
      /\ Ran.onUpdate (handleGenerateScript JSON_stringify_fragment plannedWorkflow
                         (Rejects "503 Service Unavailable") reviewing) = [])
  /\ (Ran.uncaught (handleGenerateScript JSON_stringify_fragment plannedWorkflow
                      (Responds None) reviewing) = None
      /\ WizardState.step
           (Ran.state (handleGenerateScript JSON_stringify_fragment plannedWorkflow
                         (Responds None) reviewing)) = Deploy
      /\ Ran.onUpdate (handleGenerateScript JSON_stringify_fragment plannedWorkflow
                         (Responds None) reviewing)
         = [withScript "" plannedWorkflow]).
Proof.
  split; [reflexivity|]. split; [reflexivity|]. split; [reflexivity|].
  exact (synthesis_failure_and_empty JSON_stringify_fragment plannedWorkflow invoicePlan
           "503 Service Unavailable" None reviewing eq_refl eq_refl eq_refl).
Defined.

(** C7 as stated fails: when the call returns empty content there is no
    failure, the empty script is stored with status Generated and the
    wizard moves to Deploy. *)
Lemma synthesisFailure_spec_counterexample :
  emptyContent (Responds None)
  /\ handleGenerateScript JSON_stringify_fragment plannedWorkflow (Responds None) reviewing
     = Ran.mk (WizardState.mk Deploy false "check Gmail hourly for invoices" [] None)
         [withScript "" plannedWorkflow]
         [(generateScript JSON_stringify_fragment (Responds None) invoicePlan
             "check Gmail hourly for invoices").1]
         None
  /\ ~ synthesisFailure_spec JSON_stringify_fragment plannedWorkflow
        (Responds None) reviewing.
Proof.
  split; [by exists None|]. split; [by vm_compute|].
  intros ([e He] & _). vm_compute in He. discriminate He.
Qed.



(** C9, an instance: the completion service answers without text, which is
    decoded from the default text of an empty object. *)
Lemma unrecognized_result_ignored_witness :
  JS.trim (WizardState.promptText answering) <> ""
  /\ decodesTo JSON_parse_fragment (Responds None)
       (PlanGenerationResult.mk false None None)
  /\ ~ (PlanGenerationResult.isValid (PlanGenerationResult.mk false None None) = true
        /\ is_Some (PlanGenerationResult.plan (PlanGenerationResult.mk false None None)))
  /\ (Ran.onUpdate (handleGeneratePlan JSON_parse_fragment blankWorkflow
                      (Responds None) answering) = []
      /\ WizardState.conversationHistory
           (Ran.state (handleGeneratePlan JSON_parse_fragment blankWorkflow
                         (Responds None) answering))
         = WizardState.conversationHistory answering
      /\ WizardState.promptText
           (Ran.state (handleGeneratePlan JSON_parse_fragment blankWorkflow
                         (Responds None) answering))
         = WizardState.promptText answering
      /\ WizardState.step
           (Ran.state (handleGeneratePlan JSON_parse_fragment blankWorkflow
                         (Responds None) answering))
         = WizardState.step answering
      /\ WizardState.loading
           (Ran.state (handleGeneratePlan JSON_parse_fragment blankWorkflow
                         (Responds None) answering)) = false
      /\ Ran.uncaught (handleGeneratePlan JSON_parse_fragment blankWorkflow
                         (Responds None) answering) = None
      /\ WizardState.clarificationQuestion
           (Ran.state (handleGeneratePlan JSON_parse_fragment blankWorkflow
                         (Responds None) answering)) = None).
Proof.
  assert (JS.trim (WizardState.promptText answering) <> "") as Hne by (by vm_compute).
  assert (decodesTo JSON_parse_fragment (Responds None)
            (PlanGenerationResult.mk false None None)) as Hdec by (by exists None).
  assert (~ (PlanGenerationResult.isValid (PlanGenerationResult.mk false None None) = true
             /\ is_Some (PlanGenerationResult.plan
                           (PlanGenerationResult.mk false None None)))) as Hnot
    by (by intros [? _]).
  split; [exact Hne|]. split; [exact Hdec|]. split; [exact Hnot|].
  exact (unrecognized_result_ignored JSON_parse_fragment blankWorkflow (Responds None)
           answering (PlanGenerationResult.mk false None None) Hne Hdec Hnot eq_refl).
Defined.

(** ** The further properties on examples *)

(** X1, an instance: a fenced answer. *)
Lemma generateScript_fence_free_witness :
  (generateScript JSON_stringify_fragment (Responds (Some fencedAnswer)) invoicePlan
     "check Gmail hourly for invoices").2 = Fulfilled "function run() {}"
  /\ JS.includes "```" "function run() {}" = false
  /\ JS.trim "function run() {}" = "function run() {}".
Proof.
  assert ((generateScript JSON_stringify_fragment (Responds (Some fencedAnswer))
             invoicePlan "check Gmail hourly for invoices").2
          = Fulfilled "function run() {}") as H by (by vm_compute).
  split; [exact H|].
  exact (generateScript_fence_free JSON_stringify_fragment _ _ _ _ H).
Defined.

(** X2, an instance: the same code, bare and fenced. *)
Lemma generateScript_unwraps_witness :
  noBacktick fencedBody = true
  /\ (generateScript JSON_stringify_fragment (Responds (Some fencedBody)) invoicePlan
        "check Gmail hourly for invoices").2 = Fulfilled (JS.trim fencedBody)
  /\ (generateScript JSON_stringify_fragment
        (Responds (Some ("```javascript" +:+ fencedBody +:+ "```"))) invoicePlan
        "check Gmail hourly for invoices").2 = Fulfilled (JS.trim fencedBody).
Proof.
  split; [reflexivity|].
  exact (generateScript_unwraps JSON_stringify_fragment invoicePlan
           "check Gmail hourly for invoices" fencedBody eq_refl).
Defined.

(** X7, an instance: two workflows, the first updated. *)
Lemma store_update_in_place_witness :
  NoDup (Workflow.id <$> [blankWorkflow; scriptOnlyWorkflow])
  /\ [blankWorkflow; scriptOnlyWorkflow] !! 0%nat = Some blankWorkflow
  /\ Workflow.id blankWorkflow = Workflow.id plannedWorkflow
  /\ handleUpdateWorkflow plannedWorkflow [blankWorkflow; scriptOnlyWorkflow]
     = <[0%nat := plannedWorkflow]> [blankWorkflow; scriptOnlyWorkflow].
Proof.
  assert (NoDup (Workflow.id <$> [blankWorkflow; scriptOnlyWorkflow])) as Hnodup.
  { apply (bool_decide_unpack _). by vm_compute. }
  split; [exact Hnodup|]. split; [reflexivity|]. split; [reflexivity|].
  exact (store_update_in_place plannedWorkflow blankWorkflow 0
           [blankWorkflow; scriptOnlyWorkflow] Hnodup eq_refl eq_refl).
Defined.

(** X9, an instance: a plan is accepted for the second of two workflows. *)
Lemma wizard_touches_active_only_witness :
  wizardEvent (ClickGeneratePlan (Responds (Some acceptedText))) = true
  /\ App.workflows (run JSON_parse_fragment JSON_stringify_fragment initial twoWorkflowsSession) !! 1%nat
     = Some (Workflow.mk "wf-2" "" "" "" None None Draft 0)
  /\ App.activeWorkflowId (run JSON_parse_fragment JSON_stringify_fragment initial twoWorkflowsSession) <> Some "wf-2"
  /\ App.workflows
       (dispatch JSON_parse_fragment JSON_stringify_fragment (run JSON_parse_fragment JSON_stringify_fragment initial twoWorkflowsSession)
          (ClickGeneratePlan (Responds (Some acceptedText)))) !! 1%nat
     = Some (Workflow.mk "wf-2" "" "" "" None None Draft 0)
  /\ Workflow.id <$>
       App.workflows
         (dispatch JSON_parse_fragment JSON_stringify_fragment (run JSON_parse_fragment JSON_stringify_fragment initial twoWorkflowsSession)
            (ClickGeneratePlan (Responds (Some acceptedText))))
     = Workflow.id <$> App.workflows (run JSON_parse_fragment JSON_stringify_fragment initial twoWorkflowsSession).
Proof.
  assert (App.workflows (run JSON_parse_fragment JSON_stringify_fragment initial twoWorkflowsSession) !! 1%nat
          = Some (Workflow.mk "wf-2" "" "" "" None None Draft 0)) as Hi
    by (by vm_compute).
  assert (App.activeWorkflowId (run JSON_parse_fragment JSON_stringify_fragment initial twoWorkflowsSession)
          <> Some (Workflow.id (Workflow.mk "wf-2" "" "" "" None None Draft 0)))
    as Hother by (by vm_compute).
  split; [reflexivity|]. split; [exact Hi|]. split; [exact Hother|].
  exact (wizard_touches_active_only JSON_parse_fragment JSON_stringify_fragment
           _ (ClickGeneratePlan (Responds (Some acceptedText))) 1 _ eq_refl Hi Hother).
Defined.

(** X10, an instance: after the script is generated, the controls of the
    steps do nothing. *)
Lemma deploy_is_terminal_witness :
  App.mounted
    (run JSON_parse_fragment JSON_stringify_fragment initial
       (acceptedSession ++ [ClickGenerateScript (Responds (Some fencedAnswer))]))
  = Some (WizardState.mk Deploy false "check Gmail hourly for invoices" [] None)
  /\ Forall (fun e => wizardEvent e = true)
       [TypePrompt "again"; ClickRefine;
        ClickGeneratePlan (Responds (Some acceptedText));
        ClickGenerateScript (Responds None)]
  /\ run JSON_parse_fragment JSON_stringify_fragment
       (run JSON_parse_fragment JSON_stringify_fragment initial
          (acceptedSession ++ [ClickGenerateScript (Responds (Some fencedAnswer))]))
       [TypePrompt "again"; ClickRefine;
        ClickGeneratePlan (Responds (Some acceptedText));
        ClickGenerateScript (Responds None)]
     = run JSON_parse_fragment JSON_stringify_fragment initial
         (acceptedSession ++ [ClickGenerateScript (Responds (Some fencedAnswer))]).
Proof.
  assert (App.mounted
            (run JSON_parse_fragment JSON_stringify_fragment initial
               (acceptedSession ++ [ClickGenerateScript (Responds (Some fencedAnswer))]))
          = Some (WizardState.mk Deploy false "check Gmail hourly for invoices" [] None))
    as Hm by (by vm_compute).
  assert (Forall (fun e => wizardEvent e = true)
            [TypePrompt "again"; ClickRefine;
             ClickGeneratePlan (Responds (Some acceptedText));
             ClickGenerateScript (Responds None)]) as Hall
    by (repeat (apply Forall_cons; split; [reflexivity|]); apply Forall_nil_2).
  split; [exact Hm|]. split; [exact Hall|].
  exact (deploy_is_terminal JSON_parse_fragment JSON_stringify_fragment _ _ _
           Hm eq_refl Hall).
Defined.

(** X11, an instance: the reply to a pending question is answered with
    another question; Refine Instructions in Review. *)
Lemma conversation_in_rounds_witness :
  conversationInRounds answering
  /\ WizardState.step answering = Describe
  /\ conversationInRounds
       (Ran.state (handleGeneratePlan JSON_parse_fragment blankWorkflow
                     (Responds (Some clarificationText)) answering))
  /\ conversationInRounds reviewing
  /\ WizardState.step reviewing = Review
  /\ conversationInRounds (handleRefine reviewing).
Proof.
  assert (conversationInRounds answering) as Hanswering.
  { exists [("notify me about invoices", "Which email provider?")].
    split; [done|]. split.
    - apply Forall_singleton. split; [by vm_compute | done].
    - intros q [= <-]. split; [done | by eexists]. }
  assert (conversationInRounds reviewing) as Hreviewing.
  { exists []. split; [done|]. split; [apply Forall_nil_2 | done]. }
  split; [exact Hanswering|]. split; [reflexivity|]. split.
  - exact (proj1 (proj2 (proj2
             (proj2 (conversation_in_rounds JSON_parse_fragment JSON_stringify_fragment
                       blankWorkflow answering) Hanswering)))
             (Responds (Some clarificationText)) eq_refl).
  - split; [exact Hreviewing|]. split; [reflexivity|].
    exact (proj1 (proj2 (proj2 (proj2
             (proj2 (conversation_in_rounds JSON_parse_fragment JSON_stringify_fragment
                       blankWorkflow reviewing) Hreviewing))))
             eq_refl).
Defined.

(** X15, an instance: the first utterance is accepted. *)
Lemma plan_accepted_witness :
  App.view (run JSON_parse_fragment JSON_stringify_fragment initial [ClickNewWorkflow "wf-1" 0]) = ViewWizard
  /\ App.mounted (run JSON_parse_fragment JSON_stringify_fragment initial [ClickNewWorkflow "wf-1" 0]) = Some (describing "")
  /\ activeWorkflow (run JSON_parse_fragment JSON_stringify_fragment initial [ClickNewWorkflow "wf-1" 0]) = Some blankWorkflow
  /\ JS.trim "check Gmail hourly for invoices" <> ""
  /\ acceptedWith JSON_parse_fragment (Responds (Some acceptedText)) invoicePlan
  /\ activeWorkflow
       (run JSON_parse_fragment JSON_stringify_fragment (run JSON_parse_fragment JSON_stringify_fragment initial [ClickNewWorkflow "wf-1" 0])
          [TypePrompt "check Gmail hourly for invoices";
           ClickGeneratePlan (Responds (Some acceptedText))])
     = Some plannedWorkflow
  /\ App.mounted
       (run JSON_parse_fragment JSON_stringify_fragment (run JSON_parse_fragment JSON_stringify_fragment initial [ClickNewWorkflow "wf-1" 0])
          [TypePrompt "check Gmail hourly for invoices";
           ClickGeneratePlan (Responds (Some acceptedText))])
     = Some reviewing
  /\ initialStep plannedWorkflow = Review.
Proof.
  assert (JS.trim "check Gmail hourly for invoices" <> "") as Hne by (by vm_compute).
  assert (acceptedWith JSON_parse_fragment (Responds (Some acceptedText)) invoicePlan)
    as Hacc.
  { exists (PlanGenerationResult.mk true None (Some invoicePlan)).
    split; [by exists (Some acceptedText) | by split]. }
  destruct (plan_accepted JSON_parse_fragment JSON_stringify_fragment
              (run JSON_parse_fragment JSON_stringify_fragment initial [ClickNewWorkflow "wf-1" 0]) (describing "") blankWorkflow
              "check Gmail hourly for invoices" (Responds (Some acceptedText)) invoicePlan
              eq_refl eq_refl eq_refl eq_refl eq_refl Hne Hacc)
    as (Hw & _ & Hm & _ & Hstep).
  split; [reflexivity|]. split; [reflexivity|]. split; [reflexivity|].
  split; [exact Hne|]. split; [exact Hacc|]. split; [exact Hw|]. split; [exact Hm|].
  exact (Hstep eq_refl).
Defined.

(** X16, an instance: a fenced answer to Generate Script. *)
Lemma script_generated_witness :
  App.view (run JSON_parse_fragment JSON_stringify_fragment initial acceptedSession) = ViewWizard
  /\ App.mounted (run JSON_parse_fragment JSON_stringify_fragment initial acceptedSession) = Some reviewing
  /\ activeWorkflow (run JSON_parse_fragment JSON_stringify_fragment initial acceptedSession) = Some plannedWorkflow
  /\ Workflow.plan plannedWorkflow = Some invoicePlan
  /\ activeWorkflow
       (dispatch JSON_parse_fragment JSON_stringify_fragment (run JSON_parse_fragment JSON_stringify_fragment initial acceptedSession)
          (ClickGenerateScript (Responds (Some fencedAnswer))))
     = Some (withScript "function run() {}" plannedWorkflow)
  /\ App.mounted
       (dispatch JSON_parse_fragment JSON_stringify_fragment (run JSON_parse_fragment JSON_stringify_fragment initial acceptedSession)
          (ClickGenerateScript (Responds (Some fencedAnswer))))
     = Some (WizardState.mk Deploy false "check Gmail hourly for invoices" [] None)
  /\ App.unhandled
       (dispatch JSON_parse_fragment JSON_stringify_fragment (run JSON_parse_fragment JSON_stringify_fragment initial acceptedSession)
          (ClickGenerateScript (Responds (Some fencedAnswer))))
     = App.unhandled (run JSON_parse_fragment JSON_stringify_fragment initial acceptedSession).
Proof.
  destruct (script_generated JSON_parse_fragment JSON_stringify_fragment
              (run JSON_parse_fragment JSON_stringify_fragment initial acceptedSession) reviewing plannedWorkflow invoicePlan
              (Some fencedAnswer) eq_refl eq_refl eq_refl eq_refl eq_refl eq_refl)
    as (Hw & _ & Hm & _ & Herr).
  split; [reflexivity|]. split; [reflexivity|]. split; [reflexivity|].
  split; [reflexivity|]. split; [exact Hw|]. split; [exact Hm | exact Herr].
Defined.

(** X18, an instance: a blank draft and a planned workflow of the same id. *)
Lemma submission_reads_id_script_createdAt_witness :
  Workflow.id blankWorkflow = Workflow.id plannedWorkflow
  /\ Workflow.script blankWorkflow = Workflow.script plannedWorkflow
  /\ Workflow.createdAt blankWorkflow = Workflow.createdAt plannedWorkflow
  /\ handleGeneratePlan JSON_parse_fragment blankWorkflow
       (Responds (Some acceptedText)) answering
     = handleGeneratePlan JSON_parse_fragment plannedWorkflow
         (Responds (Some acceptedText)) answering.
Proof.
  split; [reflexivity|]. split; [reflexivity|]. split; [reflexivity|].
  exact (submission_reads_id_script_createdAt JSON_parse_fragment blankWorkflow
           plannedWorkflow (Responds (Some acceptedText)) answering
           eq_refl eq_refl eq_refl).
Defined.

(** X19, an instance: two workflows created with different UUIDs. *)
Lemma unique_ids_kept_witness :
  NoDup (Workflow.id <$> App.workflows initial)
  /\ freshUUIDs JSON_parse_fragment JSON_stringify_fragment initial twoWorkflowsSession
  /\ NoDup (Workflow.id <$> App.workflows (run JSON_parse_fragment JSON_stringify_fragment initial twoWorkflowsSession)).
Proof.
  assert (NoDup (Workflow.id <$> App.workflows initial)) as Hnodup by apply NoDup_nil_2.
  assert (freshUUIDs JSON_parse_fragment JSON_stringify_fragment initial
            twoWorkflowsSession) as Hfresh.
  { repeat split; apply (bool_decide_unpack _); by vm_compute. }
  split; [exact Hnodup|]. split; [exact Hfresh|].
  exact (unique_ids_kept JSON_parse_fragment JSON_stringify_fragment _ _ Hnodup Hfresh).
Defined.

(** X20, an instance: a question to the assistant, answered. *)
Lemma assistant_send_witness :
  JS.trim (AssistantState.input asking) <> ""
  /\ exists answer request,
       AssistantState.messages (handleSend (Responds (Some "Use GmailApp.")) asking).1
       = AssistantState.messages asking
           ++ [AssistantMessage.mk user (AssistantState.input asking) None; answer]
       /\ AssistantMessage.role answer = model
       /\ AssistantMessage.text answer <> ""
       /\ (AssistantMessage.isError answer = Some true
           <-> exists err, Responds (Some "Use GmailApp.") = Rejects err)
       /\ (forall text, Responds (Some "Use GmailApp.") = Responds text ->
             answer = AssistantMessage.mk model (JS.orElse text "Error occurred.") None)
       /\ AssistantState.input (handleSend (Responds (Some "Use GmailApp.")) asking).1 = ""
       /\ AssistantState.loading (handleSend (Responds (Some "Use GmailApp.")) asking).1
          = false
       /\ AssistantState.isOpen (handleSend (Responds (Some "Use GmailApp.")) asking).1
          = AssistantState.isOpen asking
       /\ (handleSend (Responds (Some "Use GmailApp.")) asking).2 = [request]
       /\ ChatRequest.message request = AssistantState.input asking
       /\ ChatRequest.history request
          = (fun m => ChatTurn.mk (AssistantMessage.role m) [AssistantMessage.text m])
              <$> AssistantState.messages asking.
Proof.
  assert (JS.trim (AssistantState.input asking) <> "") as Hne by (by vm_compute).
  split; [exact Hne|].
  exact (assistant_send (Responds (Some "Use GmailApp.")) asking Hne).
Defined.

(** X21, an instance: the first question to the assistant, answered. *)
Lemma assistant_in_exchanges_witness :
  inExchanges asking
  /\ inExchanges (handleSend (Responds (Some "Use MailApp.sendEmail.")) asking).1.
Proof.
  assert (inExchanges asking) as Hasking.
  { split; [done|]. exists []. split; [done | apply Forall_nil_2]. }
  split; [exact Hasking|].
  exact (proj1 (proj2 (proj2 (assistant_in_exchanges asking)) Hasking)
           (Responds (Some "Use MailApp.sendEmail."))).
Defined.

(** X24, an instance: the reply to a pending question. *)
Lemma plan_request_carries_conversation_witness :
  Ran.sent (handleGeneratePlan JSON_parse_fragment blankWorkflow
              (Responds (Some acceptedText)) answering)
  = [(generateAutomationPlan JSON_parse_fragment (Responds (Some acceptedText))
        (WizardState.promptText answering)
        (historyLine <$> WizardState.conversationHistory answering)).1]
  /\ JS.includes (WizardState.promptText answering)
       (contents
          (generateAutomationPlan JSON_parse_fragment (Responds (Some acceptedText))
             (WizardState.promptText answering)
             (historyLine <$> WizardState.conversationHistory answering)).1) = true
  /\ forall m, m ∈ WizardState.conversationHistory answering ->
       JS.includes (historyLine m)
         (contents
            (generateAutomationPlan JSON_parse_fragment (Responds (Some acceptedText))
               (WizardState.promptText answering)
               (historyLine <$> WizardState.conversationHistory answering)).1) = true
       /\ JS.includes (ChatMessage.text m)
            (contents
               (generateAutomationPlan JSON_parse_fragment (Responds (Some acceptedText))
                  (WizardState.promptText answering)
                  (historyLine <$> WizardState.conversationHistory answering)).1) = true.
Proof.
  assert (Ran.sent (handleGeneratePlan JSON_parse_fragment blankWorkflow
                      (Responds (Some acceptedText)) answering)
          = [(generateAutomationPlan JSON_parse_fragment (Responds (Some acceptedText))
                (WizardState.promptText answering)
                (historyLine <$> WizardState.conversationHistory answering)).1]) as Hsent
    by reflexivity.
  split; [exact Hsent|].
  exact (plan_request_carries_conversation JSON_parse_fragment blankWorkflow
           (Responds (Some acceptedText)) answering _ Hsent).
Defined.

(** X25, an instance: the request for the script of the invoice plan. *)
Lemma script_request_carries_plan_witness :
  Workflow.plan plannedWorkflow = Some invoicePlan
  /\ Ran.sent (handleGenerateScript JSON_stringify_fragment plannedWorkflow
                 (Responds (Some fencedAnswer)) reviewing)
     = [(generateScript JSON_stringify_fragment (Responds (Some fencedAnswer))
           invoicePlan (Workflow.prompt plannedWorkflow)).1]
  /\ JS.includes (JSON_stringify_fragment invoicePlan)
       (contents
          (generateScript JSON_stringify_fragment (Responds (Some fencedAnswer))
             invoicePlan (Workflow.prompt plannedWorkflow)).1) = true
  /\ JS.includes (Workflow.prompt plannedWorkflow)
       (contents
          (generateScript JSON_stringify_fragment (Responds (Some fencedAnswer))
             invoicePlan (Workflow.prompt plannedWorkflow)).1) = true.
Proof.
  assert (Ran.sent (handleGenerateScript JSON_stringify_fragment plannedWorkflow
                      (Responds (Some fencedAnswer)) reviewing)
          = [(generateScript JSON_stringify_fragment (Responds (Some fencedAnswer))
                invoicePlan (Workflow.prompt plannedWorkflow)).1]) as Hsent
    by reflexivity.
  split; [reflexivity|]. split; [exact Hsent|].
  exact (script_request_carries_plan JSON_stringify_fragment plannedWorkflow invoicePlan
           (Responds (Some fencedAnswer)) reviewing _ eq_refl Hsent).
Defined.

(** X26, an instance: the first workflow. *)
Lemma new_workflow_opens_describe_witness :
  App.view initial = ViewDashboard
  /\ App.mounted initial = None
  /\ App.workflows (dispatch JSON_parse_fragment JSON_stringify_fragment initial (ClickNewWorkflow "wf-1" 0))
     = Workflow.mk "wf-1" "" "" "" None None Draft 0 :: App.workflows initial
  /\ App.view (dispatch JSON_parse_fragment JSON_stringify_fragment initial (ClickNewWorkflow "wf-1" 0)) = ViewWizard
  /\ activeWorkflow (dispatch JSON_parse_fragment JSON_stringify_fragment initial (ClickNewWorkflow "wf-1" 0))
     = Some (Workflow.mk "wf-1" "" "" "" None None Draft 0)
  /\ App.mounted (dispatch JSON_parse_fragment JSON_stringify_fragment initial (ClickNewWorkflow "wf-1" 0))
     = Some (WizardState.mk Describe false "" [] None)
  /\ App.log (dispatch JSON_parse_fragment JSON_stringify_fragment initial (ClickNewWorkflow "wf-1" 0)) = App.log initial.
Proof.
  split; [reflexivity|]. split; [reflexivity|].
  exact (new_workflow_opens_describe JSON_parse_fragment JSON_stringify_fragment
           initial "wf-1" 0 eq_refl eq_refl).
Defined.
